(** * VIIRS NOAA enterprise L2 reader ([satpy/readers/viirs_edr.py])

    A shallow embedding of the two file handlers of the module,
    [VIIRSJRRFileHandler] and [VIIRSSurfaceReflectanceWithVIHandler], and
    the properties of their dataset retrieval, masking, unit handling,
    availability listing and platform lookup.

    Layout: the Python values and exceptions the handlers manipulate, the
    part of numpy/xarray they call, the handlers themselves (one Rocq
    definition per method, under the method's name), then the theorems. *)

From Stdlib Require Import ZArith String Ascii List Lia.
From Stdlib Require Import Floats.PrimFloat.
From stdpp Require Import base option gmap strings list fin_maps.

Local Open Scope string_scope.

(** ** Python values and exceptions *)

(** The values found in the dictionaries the handler reads: descriptor
    dictionaries loaded from YAML, filename information, attributes and
    encodings of variables. *)
#[warnings="-register-all"]
Inductive pyval : Type :=
  | PyNone
  | PyBool (b : bool)
  | PyInt (z : Z)
  | PyFloat (f : float)
  | PyStr (s : string)
  | PyList (l : list pyval).

(** A Python [dict] with string keys. *)
Abbreviation dict := (gmap string pyval).

(** Exceptions the code can raise. [Unmodelled] marks an input whose
    numpy/xarray behaviour (broadcasting against a list, selecting several
    variables at once) is left out of the embedding; no statement below
    asserts that it is raised. *)
Inductive exn : Type :=
  | KeyError (key : pyval)
  | IndexError
  | TypeError
  | ValueError
  | AttributeError
  | AxisError
  | Unmodelled.

Inductive result (A : Type) : Type :=
  | Ok (a : A)
  | Raise (e : exn).
Arguments Ok {A} a.
Arguments Raise {A} e.

#[global] Instance result_ret : MRet result := fun A a => Ok a.
#[global] Instance result_bind : MBind result := fun A B f m =>
  match m with
  | Ok a => f a
  | Raise e => Raise e
  end.

#[global] Instance result_fmap : FMap result := fun A B f m =>
  match m with
  | Ok a => Ok (f a)
  | Raise e => Raise e
  end.

Definition is_ok {A} (r : result A) : bool :=
  match r with Ok _ => true | Raise _ => false end.

Module Py.

(** [d[key]] *)
Definition getitem (d : dict) (key : string) : result pyval :=
  match d !! key with
  | Some v => Ok v
  | None => Raise (KeyError (PyStr key))
  end.

(** [d.get(key)], which is [None] for a missing key. *)
Definition get (d : dict) (key : string) : pyval :=
  default PyNone (d !! key).

(** [d.get(key, dflt)] *)
Definition get_default (d : dict) (key : string) (dflt : pyval) : pyval :=
  default dflt (d !! key).

(** [v is None] *)
Definition is_none (v : pyval) : bool :=
  match v with PyNone => true | _ => false end.

(** [v == s] for a string literal [s]. *)
Definition eq_str (v : pyval) (s : string) : bool :=
  match v with PyStr t => String.eqb t s | _ => false end.

(** [v in (s1, ..., sn)] for a tuple of string literals. *)
Definition in_strs (v : pyval) (ss : list string) : bool :=
  existsb (eq_str v) ss.

(** [c in s] for a one-character string [c]. *)
Fixpoint contains (c : ascii) (s : string) : bool :=
  match s with
  | EmptyString => false
  | String a rest => Ascii.eqb a c || contains c rest
  end.

Definition newline : ascii := ascii_of_nat 10.
Definition space : ascii := " "%char.

(** [s.split(c)] with an explicit one-character separator: every
    occurrence of the separator ends a token, empty tokens are kept, and
    the result is never empty. *)
Fixpoint split (c : ascii) (s : string) : list string :=
  match s with
  | EmptyString => [EmptyString]
  | String a rest =>
      if Ascii.eqb a c then EmptyString :: split c rest
      else match split c rest with
           | tok :: toks => String a tok :: toks
           | [] => [String a EmptyString]
           end
  end.

(** [sep.join(toks)] for a one-character separator. *)
Fixpoint join (c : ascii) (toks : list string) : string :=
  match toks with
  | [] => EmptyString
  | [tok] => tok
  | tok :: rest => tok ++ String c (join c rest)
  end.

(** [str.upper] on ASCII text: platform codes come out of the filename
    pattern and are ASCII. *)
Definition upper_ascii (a : ascii) : ascii :=
  let n := nat_of_ascii a in
  if (97 <=? n)%nat && (n <=? 122)%nat then ascii_of_nat (n - 32) else a.

Fixpoint upper (s : string) : string :=
  match s with
  | EmptyString => EmptyString
  | String a rest => String (upper_ascii a) (upper rest)
  end.

End Py.

(** ** The part of numpy the handlers use *)

Module Np.

(** Conversion of an integer to binary64, as numpy does when an integer
    array meets a float or a missing value; exact up to 2^53. *)
Fixpoint float_of_pos (p : positive) : float :=
  match p with
  | xH => 1%float
  | xO q => (2 * float_of_pos q)%float
  | xI q => (2 * float_of_pos q + 1)%float
  end.

Definition float_of_Z (z : Z) : float :=
  match z with
  | Z0 => 0%float
  | Zpos p => float_of_pos p
  | Zneg p => (- float_of_pos p)%float
  end.

(** An n-dimensional array: its shape and its elements in row-major
    (C) order. *)
Record ndarray (A : Type) : Type := mk_ndarray {
  shape : list nat;
  flat : list A
}.
Arguments mk_ndarray {A} shape flat.
Arguments shape {A} _.
Arguments flat {A} _.

Definition size (shp : list nat) : nat := foldr Nat.mul 1%nat shp.

(** Element-wise application of a function. *)
Definition map {A B} (f : A → B) (a : ndarray A) : ndarray B :=
  mk_ndarray (shape a) (List.map f (flat a)).

(** Element-wise combination of two arrays of one shape. *)
Fixpoint zip_with {A B C} (f : A → B → C) (xs : list A) (ys : list B) : list C :=
  match xs, ys with
  | x :: xs', y :: ys' => f x y :: zip_with f xs' ys'
  | _, _ => []
  end.

(** A scalar operand: a Python [int] or [float]. *)
Inductive number : Type :=
  | NInt (z : Z)
  | NFloat (f : float).

Definition to_float (n : number) : float :=
  match n with
  | NInt z => float_of_Z z
  | NFloat f => f
  end.

(** [a == b] and [a <= b] on scalars: integers compare exactly, anything
    else after conversion to binary64 (so that NaN equals nothing and is
    below nothing). *)
Definition eqb (a b : number) : bool :=
  match a, b with
  | NInt x, NInt y => (x =? y)%Z
  | _, _ => PrimFloat.eqb (to_float a) (to_float b)
  end.

Definition leb (a b : number) : bool :=
  match a, b with
  | NInt x, NInt y => (x <=? y)%Z
  | _, _ => PrimFloat.leb (to_float a) (to_float b)
  end.

(** The first [n] consecutive blocks of [len] elements of a list. *)
Fixpoint chunks {A} (n len : nat) (xs : list A) : list (list A) :=
  match n with
  | O => []
  | S n' => take len xs :: chunks n' len (drop len xs)
  end.

(** [a.repeat(2, axis)] on the flat data of an array of shape [shp]:
    along the chosen axis every index is visited twice in a row. *)
Fixpoint repeat2_flat {A} (shp : list nat) (axis : nat) (xs : list A) : list A :=
  match shp with
  | [] => xs
  | n :: rest =>
      let blocks := chunks n (size rest) xs in
      match axis with
      | O => List.concat (List.map (fun b => (b ++ b)%list) blocks)
      | S axis' => List.concat (List.map (repeat2_flat rest axis') blocks)
      end
  end.

Definition repeat2 {A} (axis : nat) (a : ndarray A) : result (ndarray A) :=
  if (axis <? length (shape a))%nat then
    Ok (mk_ndarray (alter (Nat.mul 2) axis (shape a))
                   (repeat2_flat (shape a) axis (flat a)))
  else Raise AxisError.

(** Element [(i, j)] of a two-dimensional array. *)
Definition at2 {A} (a : ndarray A) (i j : nat) : option A :=
  match shape a with
  | [rows; cols] =>
      if (i <? rows)%nat && (j <? cols)%nat then flat a !! (i * cols + j)%nat
      else None
  | _ => None
  end.

End Np.

(** ** The part of xarray the handlers use *)

Module Xr.

(** The data of a variable: decoded variables hold floats, undecoded
    ones (quality flags among them) hold integers. *)
Inductive values : Type :=
  | Float64 (a : Np.ndarray float)
  | Int64 (a : Np.ndarray Z).

Definition values_shape (v : values) : list nat :=
  match v with
  | Float64 a => Np.shape a
  | Int64 a => Np.shape a
  end.

(** The elements of a variable as scalars. *)
Definition cells (v : values) : list Np.number :=
  match v with
  | Float64 a => List.map Np.NFloat (Np.flat a)
  | Int64 a => List.map Np.NInt (Np.flat a)
  end.

(** The elements converted to binary64. *)
Definition as_floats (v : values) : list float :=
  List.map Np.to_float (cells v).

(** [xr.DataArray]: data, dimension names, attributes and encoding. *)
Record DataArray : Type := mk_DataArray {
  data : values;
  dims : list string;
  attrs : dict;
  encoding : dict
}.

Definition shape (a : DataArray) : list nat := values_shape (data a).

Definition set_data (a : DataArray) (v : values) : DataArray :=
  {| data := v; dims := dims a; attrs := attrs a; encoding := encoding a |}.

Definition set_dims (a : DataArray) (ds : list string) : DataArray :=
  {| data := data a; dims := ds; attrs := attrs a; encoding := encoding a |}.

(** [a.attrs[key] = v] *)
Definition set_attr (a : DataArray) (key : string) (v : pyval) : DataArray :=
  {| data := data a; dims := dims a;
     attrs := <[key := v]> (attrs a); encoding := encoding a |}.

(** An intermediate labelled array without attributes, such as the
    boolean result of a comparison. *)
Record Labelled (A : Type) : Type := mk_Labelled {
  ldims : list string;
  larr : Np.ndarray A
}.
Arguments mk_Labelled {A} ldims larr.
Arguments ldims {A} _.
Arguments larr {A} _.

(** Two operands of a binary operation are put together along their
    dimension names. With the same names in the same order the sizes
    must agree; any other combination would broadcast and is left out. *)
Definition align (d1 d2 : list string) (s1 s2 : list nat) : result unit :=
  if decide (d1 = d2) then
    if decide (s1 = s2) then Ok tt else Raise ValueError
  else Raise Unmodelled.

(** A Python scalar operand of an array operation. *)
Definition as_number (v : pyval) : result Np.number :=
  match v with
  | PyBool b => Ok (Np.NInt (if b then 1 else 0))
  | PyInt z => Ok (Np.NInt z)
  | PyFloat f => Ok (Np.NFloat f)
  | _ => Raise Unmodelled
  end.

(** [np.isnan(v)] on a Python scalar. *)
Definition np_isnan (v : pyval) : result bool :=
  match v with
  | PyBool _ | PyInt _ => Ok false
  | PyFloat f => Ok (PrimFloat.is_nan f)
  | PyNone | PyStr _ => Raise TypeError
  | PyList _ => Raise Unmodelled
  end.

(** [v[i]] on a Python value. *)
Definition py_index (v : pyval) (i : nat) : result pyval :=
  match v with
  | PyList l =>
      match l !! i with
      | Some x => Ok x
      | None => Raise IndexError
      end
  | PyStr s =>
      match String.get i s with
      | Some c => Ok (PyStr (String c EmptyString))
      | None => Raise IndexError
      end
  | _ => Raise TypeError
  end.

(** A comparison of every element with a scalar. *)
Definition compare (test : Np.number → bool) (a : DataArray) : Labelled bool :=
  mk_Labelled (dims a) (Np.mk_ndarray (shape a) (List.map test (cells (data a)))).

(** [a != n], [n <= a], [a <= n] *)
Definition ne (a : DataArray) (n : Np.number) : Labelled bool :=
  compare (fun x => negb (Np.eqb x n)) a.
Definition ge (a : DataArray) (n : Np.number) : Labelled bool :=
  compare (fun x => Np.leb n x) a.
Definition le (a : DataArray) (n : Np.number) : Labelled bool :=
  compare (fun x => Np.leb x n) a.

(** A binary operation on two labelled arrays. *)
Definition binop {A B C} (f : A → B → C) (x : Labelled A) (y : Labelled B)
  : result (Labelled C) :=
  _ ← align (ldims x) (ldims y) (Np.shape (larr x)) (Np.shape (larr y));
  Ok (mk_Labelled (ldims x)
        (Np.mk_ndarray (Np.shape (larr x))
           (Np.zip_with f (Np.flat (larr x)) (Np.flat (larr y))))).

(** [x & y] and [x | y] on boolean arrays. *)
Definition band := binop andb.
Definition bor := binop orb.

(** [a.where(cond)]: the elements where [cond] is false become NaN,
    integer data turning into floats; attributes, encoding and dimension
    names are those of [a]. *)
Definition where_values (v : values) (keep : list bool) : values :=
  Float64 (Np.mk_ndarray (values_shape v)
             (Np.zip_with (fun x (k : bool) => if k then x else nan)
                (as_floats v) keep)).

Definition where_ (a : DataArray) (cond : Labelled bool) : result DataArray :=
  _ ← align (dims a) (ldims cond) (shape a) (Np.shape (larr cond));
  Ok (set_data a (where_values (data a) (Np.flat (larr cond)))).

(** [a *= x] on a lazily evaluated array: every element is multiplied
    in binary64. *)
Definition imul (a : DataArray) (x : float) : DataArray :=
  set_data a (Float64 (Np.mk_ndarray (shape a)
                (List.map (fun y => (y * x)%float) (as_floats (data a))))).

(** [a & m] for an integer mask [m]; floats have no bitwise "and". *)
Definition bitand (a : DataArray) (m : Z) : result (Labelled Z) :=
  match data a with
  | Int64 arr => Ok (mk_Labelled (dims a) (Np.map (fun v => Z.land v m) arr))
  | Float64 _ => Raise TypeError
  end.

(** A comparison of every element of an integer array with an integer. *)
Definition test (p : Z → bool) (x : Labelled Z) : Labelled bool :=
  mk_Labelled (ldims x) (Np.map p (larr x)).

(** *** Datasets *)

(** A Python dictionary whose insertion order matters, as a list of
    pairs with distinct keys. *)
Fixpoint assoc_get {V} (key : string) (d : list (string * V)) : option V :=
  match d with
  | [] => None
  | (k, v) :: rest => if String.eqb k key then Some v else assoc_get key rest
  end.

Definition assoc_mem {V} (key : string) (d : list (string * V)) : bool :=
  bool_decide (is_Some (assoc_get key d)).

(** [d[key] = v]: an existing key keeps its place. *)
Fixpoint assoc_set {V} (key : string) (v : V) (d : list (string * V))
  : list (string * V) :=
  match d with
  | [] => [(key, v)]
  | (k, w) :: rest =>
      if String.eqb k key then (k, v) :: rest
      else (k, w) :: assoc_set key v rest
  end.

(** [xr.Dataset]: the sizes of its dimensions and its variables. *)
Record Dataset : Type := mk_Dataset {
  ds_dims : list (string * nat);
  ds_vars : list (string * DataArray)
}.

(** [name in ds.dims] and [name in ds] *)
Definition has_dim (ds : Dataset) (name : string) : bool :=
  assoc_mem name (ds_dims ds).
Definition has_var (ds : Dataset) (name : string) : bool :=
  assoc_mem name (ds_vars ds).

(** [ds[name]] for a data variable. Virtual variables (a bare dimension
    name, a dotted component) are not part of the embedding. *)
Definition getitem (ds : Dataset) (name : string) : result DataArray :=
  match assoc_get name (ds_vars ds) with
  | Some a => Ok a
  | None => Raise (KeyError (PyStr name))
  end.

(** [ds[name].attrs.update({key: v})]: the array handed out shares its
    attributes with the dataset, which therefore changes. *)
Definition update_attr (ds : Dataset) (name key : string) (v : pyval) : Dataset :=
  match assoc_get name (ds_vars ds) with
  | Some a => mk_Dataset (ds_dims ds) (assoc_set name (set_attr a key v) (ds_vars ds))
  | None => ds
  end.

(** [name_dict.get(k, k)] *)
Definition new_name (name_dict : list (string * string)) (k : string) : string :=
  default k (assoc_get k name_dict).

(** The variables of the renamed dataset, built in order; a new name
    that is already taken is an error. *)
Fixpoint rename_vars (name_dict : list (string * string))
    (vars acc : list (string * DataArray)) : result (list (string * DataArray)) :=
  match vars with
  | [] => Ok acc
  | (k, a) :: rest =>
      let name := new_name name_dict k in
      if assoc_mem name acc then Raise ValueError
      else rename_vars name_dict rest
             (acc ++ [(name, set_dims a (List.map (new_name name_dict) (dims a)))])%list
  end.

(** The dimensions of the renamed dataset: a dictionary built from the
    old one, so that two dimensions renamed to one name leave one entry
    with the later size. *)
Definition rename_dims (name_dict : list (string * string))
    (ds : list (string * nat)) : list (string * nat) :=
  foldl (fun acc kv => assoc_set (new_name name_dict (fst kv)) (snd kv) acc) [] ds.

(** [ds.rename(name_dict)]: every key has to name a variable or a
    dimension. *)
Definition rename (ds : Dataset) (name_dict : list (string * string))
  : result Dataset :=
  if forallb (fun kv => has_var ds (fst kv) || has_dim ds (fst kv)) name_dict then
    vars ← rename_vars name_dict (ds_vars ds) [];
    Ok (mk_Dataset (rename_dims name_dict (ds_dims ds)) vars)
  else Raise ValueError.

End Xr.

(** ** The file handlers *)

(** The class of a handler object, which decides the method a call on
    [self] reaches. *)
Inductive handler_class : Type :=
  | VIIRSJRRFileHandler_class
  | VIIRSSurfaceReflectanceWithVIHandler_class.

(** The attributes of a handler object. [filename], [filename_info] and
    [filetype_info] are stored by the base class of the framework. *)
Record Handler : Type := mk_Handler {
  cls : handler_class;
  filename : string;
  filename_info : dict;
  filetype_info : dict;
  nc : Xr.Dataset;
  algorithm_version : pyval;
  sensor_name : string
}.

Module VIIRSJRRFileHandler.

(** Rows per chunk of the 750 m and of the 375 m grid, from the chunk
    size limit of the framework: [max(limit // 4 // 3200, 1)] and twice
    that. Chunking does not change the values read. *)
Definition row_chunks_m (chunk_size_limit : Z) : Z :=
  Z.max (chunk_size_limit / 4 / 3200) 1.
Definition row_chunks_i (chunk_size_limit : Z) : Z :=
  row_chunks_m chunk_size_limit * 2.

(** The renaming of the spatial dimensions in [__init__]. *)
Definition rename_spatial_dims (ds : Xr.Dataset) : result Xr.Dataset :=
  if Xr.has_dim ds "columns" then
    Xr.rename ds [("Columns", "x"); ("Rows", "y")]
  else if Xr.has_dim ds "Along_Track_375m" then
    ds1 ← Xr.rename ds [("Along_Scan_375m", "x"); ("Along_Track_375m", "y")];
    Xr.rename ds1 [("Along_Scan_750m", "x"); ("Along_Track_750m", "y")]
  else Ok ds.

(** The geolocation variables get their standard names. *)
Definition name_geolocation (ds : Xr.Dataset) : Xr.Dataset :=
  let ds1 :=
    if Xr.has_var ds "Latitude"
    then Xr.update_attr ds "Latitude" "standard_name" (PyStr "latitude")
    else ds in
  if Xr.has_var ds1 "Longitude"
  then Xr.update_attr ds1 "Longitude" "standard_name" (PyStr "longitude")
  else ds1.

(** [__init__(self, filename, filename_info, filetype_info)]. [opened]
    is what [xr.open_dataset] returns for the file; [class] is the class
    being instantiated. *)
Definition __init__ (class : handler_class) (filename : string)
    (filename_info filetype_info : dict) (opened : Xr.Dataset) : result Handler :=
  ds ← rename_spatial_dims opened;
  let ds := name_geolocation ds in
  version ← Py.getitem filename_info "platform_shortname";
  Ok {| cls := class; filename := filename; filename_info := filename_info;
        filetype_info := filetype_info; nc := ds;
        algorithm_version := version; sensor_name := "viirs" |}.

(** [rows_per_scans(self, data_arr)] *)
Definition rows_per_scans (data_arr : Xr.DataArray) : result Z :=
  match Xr.shape data_arr !! 1%nat with
  | Some n => Ok (if (Z.of_nat n =? 6400)%Z then 32%Z else 16%Z)
  | None => Raise IndexError
  end.

(** [_mask_invalid(self, data_arr, ds_info)] *)
Definition _mask_invalid (data_arr : Xr.DataArray) (ds_info : dict)
  : result Xr.DataArray :=
  let fill_value := Py.get (Xr.encoding data_arr) "_FillValue" in
  already_masked ←
    (if Py.is_none fill_value then Ok false
     else isnan ← Xr.np_isnan fill_value; Ok (negb isnan));
  if already_masked : bool then Ok data_arr
  else
    let yaml_fill := Py.get ds_info "_FillValue" in
    if negb (Py.is_none yaml_fill) then
      fill ← Xr.as_number yaml_fill;
      Xr.where_ data_arr (Xr.ne data_arr fill)
    else
      let valid_range :=
        Py.get_default ds_info "valid_range" (Py.get (Xr.attrs data_arr) "valid_range") in
      if negb (Py.is_none valid_range) then
        lo ← Xr.py_index valid_range 0;
        lo ← Xr.as_number lo;
        hi ← Xr.py_index valid_range 1;
        hi ← Xr.as_number hi;
        cond ← Xr.band (Xr.ge data_arr lo) (Xr.le data_arr hi);
        Xr.where_ data_arr cond
      else Ok data_arr.

(** [_decode_flag_meanings(data_arr)] *)
Definition _decode_flag_meanings (data_arr : Xr.DataArray) : Xr.DataArray :=
  match Py.get (Xr.attrs data_arr) "flag_meanings" with
  | PyStr flag_meanings =>
      if negb (Py.contains Py.newline flag_meanings) then
        Xr.set_attr data_arr "flag_meanings"
          (PyList (List.map PyStr (Py.split Py.space flag_meanings)))
      else data_arr
  | _ => data_arr
  end.

(** [start_time] and [end_time] *)
Definition start_time (self : Handler) : result pyval :=
  Py.getitem (filename_info self) "start_time".
Definition end_time (self : Handler) : result pyval :=
  Py.getitem (filename_info self) "end_time".

Definition platform_dict : gmap string string :=
  list_to_map [("NPP", "Suomi-NPP"); ("JPSS-1", "NOAA-20"); ("J01", "NOAA-20");
               ("JPSS-2", "NOAA-21"); ("J02", "NOAA-21")].

(** [platform_name] *)
Definition platform_name (self : Handler) : result string :=
  platform_path ← Py.getitem (filename_info self) "platform_shortname";
  match platform_path with
  | PyStr code =>
      match platform_dict !! Py.upper code with
      | Some name => Ok name
      | None => Raise (KeyError (PyStr (Py.upper code)))
      end
  | _ => Raise AttributeError
  end.

(** [key in self.nc], for a key taken from a descriptor. *)
Definition nc_contains (self : Handler) (key : pyval) : result bool :=
  match key with
  | PyStr name => Ok (Xr.has_var (nc self) name)
  | PyList _ => Raise TypeError
  | _ => Ok false
  end.

Section AvailableDatasets.

(** [file_type_matches] belongs to the base class of the framework:
    it answers [None] when the file type of the handler is not the one
    a descriptor declares. *)
Variable file_type_matches : Handler → pyval → pyval.

(** What a generator produced: the pairs it yielded, and the exception
    that ended it if one did. *)
Definition yielded : Type := list (pyval * dict) * option exn.

Definition yield (item : pyval * dict) (rest : yielded) : yielded :=
  (item :: fst rest, snd rest).

Definition stop (e : exn) : yielded := ([], Some e).

(** The loop of [available_datasets]. *)
Fixpoint available_loop (self : Handler) (configured : list (pyval * dict))
  : yielded :=
  match configured with
  | [] => ([], None)
  | (is_avail, ds_info) :: rest =>
      if negb (Py.is_none is_avail) then
        yield (is_avail, ds_info) (available_loop self rest)
      else
        match Py.getitem ds_info "file_type" with
        | Raise e => stop e
        | Ok file_type =>
            let after_type_check (k : yielded) : yielded :=
              if Py.is_none (file_type_matches self file_type)
              then yield (PyNone, ds_info) k
              else k in
            after_type_check
              match Py.getitem ds_info "name" with
              | Raise e => stop e
              | Ok name =>
                  let file_key := Py.get_default ds_info "file_key" name in
                  match nc_contains self file_key with
                  | Raise e => stop e
                  | Ok present =>
                      yield (PyBool present, ds_info) (available_loop self rest)
                  end
              end
        end
  end.

(** [available_datasets(self, configured_datasets=None)] *)
Definition available_datasets (self : Handler)
    (configured_datasets : option (list (pyval * dict))) : yielded :=
  available_loop self (default [] configured_datasets).

End AvailableDatasets.

End VIIRSJRRFileHandler.

Module VIIRSSurfaceReflectanceWithVIHandler.

(** The eight tests of [_get_veg_index_good_mask] on the quality flags
    of one pixel; each is true when the pixel is unacceptable. *)
Definition has_sun_glint (qf1 : Z) : bool := (Z.land qf1 192 >? 0)%Z.
Definition is_cloudy (qf1 : Z) : bool := (Z.land qf1 12 >? 0)%Z.
Definition cloud_quality (qf1 : Z) : bool := (Z.land qf1 3 <? 2)%Z.
Definition has_snow_or_ice (qf2 : Z) : bool := (Z.land qf2 32 >? 0)%Z.
Definition has_cloud_shadow (qf2 : Z) : bool := (Z.land qf2 8 >? 0)%Z.
Definition has_water (qf2 : Z) : bool :=
  let water_mask := Z.land qf2 7 in
  (water_mask <=? 2)%Z || (water_mask =? 5)%Z.
Definition has_aerosols (qf7 : Z) : bool := (Z.land qf7 12 >? 8)%Z.
Definition adjacent_to_cloud (qf7 : Z) : bool := (Z.land qf7 2 >? 0)%Z.

(** [_get_veg_index_good_mask(self)] *)
Definition _get_veg_index_good_mask (self : Handler) : result (Xr.Labelled bool) :=
  qf1 ← Xr.getitem (nc self) "QF1 Surface Reflectance";
  x ← Xr.bitand qf1 192;
  let has_sun_glint := Xr.test (fun v => (v >? 0)%Z) x in
  x ← Xr.bitand qf1 12;
  let is_cloudy := Xr.test (fun v => (v >? 0)%Z) x in
  x ← Xr.bitand qf1 3;
  let cloud_quality := Xr.test (fun v => (v <? 2)%Z) x in
  qf2 ← Xr.getitem (nc self) "QF2 Surface Reflectance";
  x ← Xr.bitand qf2 32;
  let has_snow_or_ice := Xr.test (fun v => (v >? 0)%Z) x in
  x ← Xr.bitand qf2 8;
  let has_cloud_shadow := Xr.test (fun v => (v >? 0)%Z) x in
  water_mask ← Xr.bitand qf2 7;
  has_water ← Xr.bor (Xr.test (fun v => (v <=? 2)%Z) water_mask)
                     (Xr.test (fun v => (v =? 5)%Z) water_mask);
  qf7 ← Xr.getitem (nc self) "QF7 Surface Reflectance";
  x ← Xr.bitand qf7 12;
  let has_aerosols := Xr.test (fun v => (v >? 8)%Z) x in
  x ← Xr.bitand qf7 2;
  let adjacent_to_cloud := Xr.test (fun v => (v >? 0)%Z) x in
  m ← Xr.bor has_sun_glint is_cloudy;
  m ← Xr.bor m cloud_quality;
  m ← Xr.bor m has_snow_or_ice;
  m ← Xr.bor m has_cloud_shadow;
  m ← Xr.bor m has_water;
  m ← Xr.bor m has_aerosols;
  bad_mask ← Xr.bor m adjacent_to_cloud;
  wide ← Np.repeat2 1 (Xr.larr bad_mask);
  bad_mask_iband ← Np.repeat2 0 wide;
  Ok (Xr.mk_Labelled (Xr.dims qf1) (Np.map negb bad_mask_iband)).

(** [_mask_invalid(self, data_arr, ds_info)] *)
Definition _mask_invalid (self : Handler) (data_arr : Xr.DataArray) (ds_info : dict)
  : result Xr.DataArray :=
  new_data_arr ← VIIRSJRRFileHandler._mask_invalid data_arr ds_info;
  file_key ← Py.getitem ds_info "file_key";
  if Py.in_strs file_key ["NDVI"; "EVI"] then
    good_mask ← _get_veg_index_good_mask self;
    Xr.where_ new_data_arr good_mask
  else Ok new_data_arr.

End VIIRSSurfaceReflectanceWithVIHandler.

(** [self._mask_invalid(data_arr, ds_info)]: the method of the class of
    [self]. *)
Definition self_mask_invalid (self : Handler) (data_arr : Xr.DataArray)
    (ds_info : dict) : result Xr.DataArray :=
  match cls self with
  | VIIRSJRRFileHandler_class =>
      VIIRSJRRFileHandler._mask_invalid data_arr ds_info
  | VIIRSSurfaceReflectanceWithVIHandler_class =>
      VIIRSSurfaceReflectanceWithVIHandler._mask_invalid self data_arr ds_info
  end.

(** [self.nc[key]] for a key taken from a descriptor. *)
Definition nc_getitem (self : Handler) (key : pyval) : result Xr.DataArray :=
  match key with
  | PyStr name => Xr.getitem (nc self) name
  | PyList _ => Raise Unmodelled
  | _ => Raise (KeyError key)
  end.

(** The unit of the returned array, from the unit found by
    [info.get("units", data_arr.attrs.get("units"))]. *)
Definition normalize_units (units : pyval) : pyval :=
  if Py.is_none units || Py.eq_str units "unitless" then PyStr "1" else units.

(** [get_dataset(self, dataset_id, info)], a method of
    [VIIRSJRRFileHandler] that both classes share; [dataset_id] is never
    read and is left out. The result is the array of this one call: when
    masking hands the variable back untouched, the array shares data and
    attributes with the dataset, and what a later call then finds in
    [self.nc] is outside this definition. *)
Definition get_dataset (self : Handler) (info : dict) : result Xr.DataArray :=
  file_key ← Py.getitem info "file_key";
  data_arr ← nc_getitem self file_key;
  data_arr ← self_mask_invalid self data_arr info;
  let units := Py.get_default info "units" (Py.get (Xr.attrs data_arr) "units") in
  let units := normalize_units units in
  let data_arr :=
    if Py.eq_str units "%" && Py.in_strs (Py.get (Xr.attrs data_arr) "units") ["1"; "unitless"]
    then Xr.imul data_arr 100%float
    else data_arr in
  let data_arr := Xr.set_attr data_arr "units" units in
  let data_arr :=
    match info !! "standard_name" with
    | Some standard_name => Xr.set_attr data_arr "standard_name" standard_name
    | None => data_arr
    end in
  let data_arr := VIIRSJRRFileHandler._decode_flag_meanings data_arr in
  platform_name ← VIIRSJRRFileHandler.platform_name self;
  let data_arr := Xr.set_attr data_arr "platform_name" (PyStr platform_name) in
  let data_arr := Xr.set_attr data_arr "sensor" (PyStr (sensor_name self)) in
  rows_per_scan ← VIIRSJRRFileHandler.rows_per_scans data_arr;
  Ok (Xr.set_attr data_arr "rows_per_scan" (PyInt rows_per_scan)).

(** The two classes of the module. *)
Definition VIIRSJRRFileHandler_new :=
  VIIRSJRRFileHandler.__init__ VIIRSJRRFileHandler_class.
Definition VIIRSSurfaceReflectanceWithVIHandler_new :=
  VIIRSJRRFileHandler.__init__ VIIRSSurfaceReflectanceWithVIHandler_class.

(** ** Sample files *)

Module Sample.

(** Modelled from the spec: [file_type_matches] of the framework's base
    class is not among the sources. The spec knows it as the test whether
    "this handler's file type" matches "the descriptor's declared file
    type", with a null answer when it does not; a descriptor may declare
    one type or a list of them. *)
Definition file_type_matches (self : Handler) (ds_ftype : pyval) : pyval :=
  let own := Py.get (filetype_info self) "file_type" in
  let same (v : pyval) : bool :=
    match own, v with
    | PyStr a, PyStr b => String.eqb a b
    | _, _ => false
    end in
  let declared := match ds_ftype with PyList l => l | v => [v] end in
  if existsb same declared then PyBool true else PyNone.

Definition filename_info_j01 : dict :=
  {[ "platform_shortname" := PyStr "j01";
     "start_time" := PyStr "2021-12-25T08:07:27";
     "end_time" := PyStr "2021-12-25T08:08:52" ]}.

(** A cloud mask file with the plain [Columns]/[Rows] dimensions: two
    rows of three pixels. *)
Definition cloud_mask_var : Xr.DataArray :=
  {| Xr.data := Xr.Int64 (Np.mk_ndarray [2; 3]%nat [0; 1; 2; 3; 0; 1]%Z);
     Xr.dims := ["Rows"; "Columns"];
     Xr.attrs := {[ "units" := PyStr "unitless";
                    "long_name" := PyStr "cloud mask";
                    "flag_meanings" := PyStr "clear probably_clear probably_cloudy cloudy" ]};
     Xr.encoding := ∅ |}.

Definition latitude_var : Xr.DataArray :=
  {| Xr.data := Xr.Float64 (Np.mk_ndarray [2; 3]%nat
                  [10; 10.5; 11; 20; 20.5; 21]%float);
     Xr.dims := ["Rows"; "Columns"];
     Xr.attrs := {[ "units" := PyStr "degrees_north"; "valid_range" := PyList [PyInt (-90); PyInt 90] ]};
     Xr.encoding := {[ "_FillValue" := PyFloat (-999)%float ]} |}.

Definition cloud_mask_file : Xr.Dataset :=
  {| Xr.ds_dims := [("Columns", 3%nat); ("Rows", 2%nat)];
     Xr.ds_vars := [("CloudMask", cloud_mask_var); ("Latitude", latitude_var)] |}.

Definition cloud_mask_filetype : dict := {[ "file_type" := PyStr "jrr_cloudmask" ]}.

(** A surface reflectance file with both grids: one coarse row of two
    pixels, hence two fine rows of four. The first coarse pixel has sun
    glint, the second passes every test. *)
Definition ndvi_var : Xr.DataArray :=
  {| Xr.data := Xr.Float64 (Np.mk_ndarray [2; 4]%nat
                  [0.25; 0.5; 0.75; 0.125; 0.375; 0.625; 0.875; 1]%float);
     Xr.dims := ["Along_Track_375m"; "Along_Scan_375m"];
     Xr.attrs := {[ "units" := PyStr "1"; "long_name" := PyStr "NDVI" ]};
     Xr.encoding := {[ "_FillValue" := PyFloat (-999)%float ]} |}.

Definition qf_var (flags : list Z) : Xr.DataArray :=
  {| Xr.data := Xr.Int64 (Np.mk_ndarray [1; 2]%nat flags);
     Xr.dims := ["Along_Track_750m"; "Along_Scan_750m"];
     Xr.attrs := ∅;
     Xr.encoding := ∅ |}.

Definition surf_refl_file : Xr.Dataset :=
  {| Xr.ds_dims := [("Along_Track_375m", 2%nat); ("Along_Scan_375m", 4%nat);
                    ("Along_Track_750m", 1%nat); ("Along_Scan_750m", 2%nat)];
     Xr.ds_vars := [("NDVI", ndvi_var);
                    ("QF1 Surface Reflectance", qf_var [192; 2]%Z);
                    ("QF2 Surface Reflectance", qf_var [3; 3]%Z);
                    ("QF7 Surface Reflectance", qf_var [0; 0]%Z)] |}.

Definition surf_refl_filetype : dict := {[ "file_type" := PyStr "jrr_surfref" ]}.

(** A single scan line, one-dimensional, and an array as wide as the
    375 m grid. *)
Definition scan_line : Xr.DataArray :=
  {| Xr.data := Xr.Float64 (Np.mk_ndarray [3]%nat [1; 2; 3]%float);
     Xr.dims := ["x"]; Xr.attrs := ∅; Xr.encoding := ∅ |}.

Definition i_band_row : Xr.DataArray :=
  {| Xr.data := Xr.Float64 (Np.mk_ndarray [1%nat; Z.to_nat 6400]
                              (replicate (Z.to_nat 6400) 0%float));
     Xr.dims := ["y"; "x"]; Xr.attrs := ∅; Xr.encoding := ∅ |}.

(** Descriptors as the YAML configuration gives them. *)
Definition cloud_mask_info : dict :=
  {[ "name" := PyStr "CloudMask"; "file_key" := PyStr "CloudMask";
     "file_type" := PyStr "jrr_cloudmask" ]}.

Definition ndvi_info : dict :=
  {[ "name" := PyStr "NDVI"; "file_key" := PyStr "NDVI";
     "file_type" := PyStr "jrr_surfref"; "units" := PyStr "%" ]}.

(** The handlers construction gives for the two files. *)
Definition cloud_mask_handler : Handler :=
  {| cls := VIIRSJRRFileHandler_class;
     filename := "JRR-CloudMask_v2r3_j01.nc";
     filename_info := filename_info_j01;
     filetype_info := cloud_mask_filetype;
     nc := {| Xr.ds_dims := [("Columns", 3%nat); ("Rows", 2%nat)];
              Xr.ds_vars :=
                [("CloudMask", cloud_mask_var);
                 ("Latitude", Xr.set_attr latitude_var "standard_name" (PyStr "latitude"))] |};
     algorithm_version := PyStr "j01";
     sensor_name := "viirs" |}.

Definition surf_refl_handler : Handler :=
  {| cls := VIIRSSurfaceReflectanceWithVIHandler_class;
     filename := "SurfRefl_v1r1_j01.nc";
     filename_info := filename_info_j01;
     filetype_info := surf_refl_filetype;
     nc := {| Xr.ds_dims := [("y", 1%nat); ("x", 2%nat)];
              Xr.ds_vars :=
                [("NDVI", Xr.set_dims ndvi_var ["y"; "x"]);
                 ("QF1 Surface Reflectance", Xr.set_dims (qf_var [192; 2]%Z) ["y"; "x"]);
                 ("QF2 Surface Reflectance", Xr.set_dims (qf_var [3; 3]%Z) ["y"; "x"]);
                 ("QF7 Surface Reflectance", Xr.set_dims (qf_var [0; 0]%Z) ["y"; "x"])] |};
     algorithm_version := PyStr "j01";
     sensor_name := "viirs" |}.

End Sample.


(** ** Terms of the specification *)

(** The platform codes the specification lists as known. *)
Definition known_platform_codes : list string :=
  ["NPP"; "JPSS-1"; "J01"; "JPSS-2"; "J02"].

(** Two arrays that differ in their data only. *)
Definition same_labels (a b : Xr.DataArray) : Prop :=
  Xr.dims b = Xr.dims a ∧ Xr.attrs b = Xr.attrs a ∧
  Xr.encoding b = Xr.encoding a ∧ Xr.shape b = Xr.shape a.

(** The fill value of the encoding in the words of the masking policy:
    declared when it is a number other than NaN, absent when there is
    none or when it is NaN. *)
Definition declares_fill (a : Xr.DataArray) : bool :=
  match Xr.encoding a !! "_FillValue" with
  | Some (PyBool _) | Some (PyInt _) => true
  | Some (PyFloat f) => negb (PrimFloat.is_nan f)
  | _ => false
  end.

Definition lacks_fill (a : Xr.DataArray) : bool :=
  match Xr.encoding a !! "_FillValue" with
  | None | Some PyNone => true
  | Some (PyFloat f) => PrimFloat.is_nan f
  | _ => false
  end.

(** The fill value a descriptor supplies, if it does. *)
Definition descriptor_fill (ds_info : dict) : option pyval :=
  match ds_info !! "_FillValue" with
  | Some PyNone | None => None
  | Some v => Some v
  end.

(** The valid range that is known: the one of the descriptor when it has
    the key, that of the source attributes otherwise. *)
Definition known_valid_range (a : Xr.DataArray) (ds_info : dict) : option pyval :=
  let found :=
    match ds_info !! "valid_range" with
    | Some v => Some v
    | None => Xr.attrs a !! "valid_range"
    end in
  match found with
  | Some PyNone | None => None
  | Some v => Some v
  end.

(** The array in which exactly the elements failing [keep] are masked,
    that is replaced by NaN, the others keeping their value. *)
Definition masked_unless (keep : Np.number → bool) (a : Xr.DataArray) : Xr.DataArray :=
  Xr.set_data a
    (Xr.Float64 (Np.mk_ndarray (Xr.shape a)
       (List.map (fun x => if keep x then Np.to_float x else nan)
                 (Xr.cells (Xr.data a))))).

(** The units of [get_dataset] in the words of the specification: the
    unit of the source, the unit resolved between descriptor and source,
    and the unit written on the result. *)
Definition source_units (src : Xr.DataArray) : pyval :=
  default PyNone (Xr.attrs src !! "units").

Definition resolved_units (src : Xr.DataArray) (info : dict) : pyval :=
  match info !! "units" with
  | Some override => override
  | None => source_units src
  end.

Definition output_units (resolved : pyval) : pyval :=
  match resolved with
  | PyNone => PyStr "1"
  | PyStr "unitless" => PyStr "1"
  | unit => unit
  end.

(** A percentage is asked for and the source holds a plain fraction. *)
Definition fraction_to_percent (src : Xr.DataArray) (info : dict) : Prop :=
  resolved_units src info = PyStr "%" ∧
  (source_units src = PyStr "1" ∨ source_units src = PyStr "unitless").

(** The attributes [get_dataset] writes. *)
Definition written_attrs : list string :=
  ["units"; "standard_name"; "flag_meanings"; "platform_name"; "sensor"; "rows_per_scan"].

(** The array [get_dataset] returns, from the array masking gave. *)
Definition finished (self : Handler) (info : dict) (masked : Xr.DataArray)
    (platform_name : string) (rows_per_scan : Z) : Xr.DataArray :=
  let units := normalize_units
                 (Py.get_default info "units" (Py.get (Xr.attrs masked) "units")) in
  let scaled :=
    if Py.eq_str units "%" && Py.in_strs (Py.get (Xr.attrs masked) "units") ["1"; "unitless"]
    then Xr.imul masked 100%float else masked in
  let with_units := Xr.set_attr scaled "units" units in
  let named :=
    match info !! "standard_name" with
    | Some standard_name => Xr.set_attr with_units "standard_name" standard_name
    | None => with_units
    end in
  Xr.set_attr
    (Xr.set_attr
       (Xr.set_attr (VIIRSJRRFileHandler._decode_flag_meanings named)
          "platform_name" (PyStr platform_name))
       "sensor" (PyStr (sensor_name self)))
    "rows_per_scan" (PyInt rows_per_scan).

(** Every element twice in a row. *)
Definition twice {A} (l : list A) : list A :=
  List.concat (List.map (fun x => [x; x]) l).

(** The quality test of [_get_veg_index_good_mask] on the three flags of
    one coarse pixel: the "or" of the eight masks. *)
Definition bad_pixel (qf1 qf2 qf7 : Z) : bool :=
  VIIRSSurfaceReflectanceWithVIHandler.has_sun_glint qf1
  || VIIRSSurfaceReflectanceWithVIHandler.is_cloudy qf1
  || VIIRSSurfaceReflectanceWithVIHandler.cloud_quality qf1
  || VIIRSSurfaceReflectanceWithVIHandler.has_snow_or_ice qf2
  || VIIRSSurfaceReflectanceWithVIHandler.has_cloud_shadow qf2
  || VIIRSSurfaceReflectanceWithVIHandler.has_water qf2
  || VIIRSSurfaceReflectanceWithVIHandler.has_aerosols qf7
  || VIIRSSurfaceReflectanceWithVIHandler.adjacent_to_cloud qf7.

(** The eight conditions in the words of the specification. *)
Definition unacceptable (qf1 qf2 qf7 : Z) : Prop :=
  Z.land qf1 192 ≠ 0%Z                                   (* sun glint *)
  ∨ Z.land qf1 12 ≠ 0%Z                                  (* cloud contaminated *)
  ∨ (Z.land qf1 3 < 2)%Z                                 (* poor cloud detection *)
  ∨ Z.land qf2 32 ≠ 0%Z                                  (* snow or ice *)
  ∨ Z.land qf2 8 ≠ 0%Z                                   (* cloud shadow *)
  ∨ ((Z.land qf2 7 <= 2)%Z ∨ Z.land qf2 7 = 5%Z)         (* water *)
  ∨ (Z.land qf7 12 > 8)%Z                                (* high aerosol load *)
  ∨ Z.land qf7 2 ≠ 0%Z.                                  (* adjacent to cloud *)

(** An array has as many elements as its shape says, and so has every
    variable of a dataset read from a file. *)
Definition well_formed (a : Xr.DataArray) : Prop :=
  length (Xr.cells (Xr.data a)) = Np.size (Xr.shape a).

Definition dataset_well_formed (ds : Xr.Dataset) : Prop :=
  Forall (fun kv => well_formed (snd kv)) (Xr.ds_vars ds).

(** The value at row [i] and column [j] of a two-dimensional variable,
    and the flag at that place of a two-dimensional integer variable. *)
Definition pixel (a : Xr.DataArray) (i j : nat) : option float :=
  Np.at2 (Np.mk_ndarray (Xr.shape a) (Xr.as_floats (Xr.data a))) i j.

Definition flag (a : Xr.DataArray) (i j : nat) : option Z :=
  match Xr.data a with
  | Xr.Int64 arr => Np.at2 arr i j
  | Xr.Float64 _ => None
  end.

(** The name a dimension has after construction, in the words of the
    specification: the across-scan dimensions of the convention become
    [x], the along-track ones [y], any other dimension keeps its name. *)
Definition canonical_dim (scan track : list string) (name : string) : string :=
  if bool_decide (name ∈ scan) then "x"
  else if bool_decide (name ∈ track) then "y"
  else name.

Definition plain_dim : string → string :=
  canonical_dim ["Columns"] ["Rows"].

Definition dual_dim : string → string :=
  canonical_dim ["Along_Scan_375m"; "Along_Scan_750m"]
                ["Along_Track_375m"; "Along_Track_750m"].

(** The number of occurrences of a character in a string. *)
Fixpoint occurrences (c : ascii) (s : string) : nat :=
  match s with
  | EmptyString => O
  | String a rest => (if Ascii.eqb a c then 1 else 0) + occurrences c rest
  end.

(** The key under which a descriptor is looked for in the file by
    [available_datasets], and the answer the handler gives for a pair of
    the list when the descriptor is one of its own file type. *)
Definition descriptor_key (ds_info : dict) : pyval :=
  match ds_info !! "file_key" with
  | Some key => key
  | None => default PyNone (ds_info !! "name")
  end.

Definition own_answer (self : Handler) (item : pyval * dict) : pyval :=
  match item.1 with
  | PyNone =>
      match descriptor_key item.2 with
      | PyStr key => PyBool (Xr.has_var (nc self) key)
      | _ => PyBool false
      end
  | settled => settled
  end.

(** A descriptor [available_datasets] can answer as one of its own: it
    declares a file type the handler matches, has a name, and its key is
    not a list. *)
Definition own_descriptor (file_type_matches : Handler → pyval → pyval)
    (self : Handler) (ds_info : dict) : Prop :=
  (∃ file_type, ds_info !! "file_type" = Some file_type ∧
                file_type_matches self file_type ≠ PyNone) ∧
  is_Some (ds_info !! "name") ∧
  ∀ l, descriptor_key ds_info ≠ PyList l.

(** A variable of the file as the constructed handler holds it: the two
    geolocation variables with their standard names, any other variable
    as it is. *)
Definition geolocated (name : string) (a : Xr.DataArray) : Xr.DataArray :=
  if decide (name = "Latitude") then Xr.set_attr a "standard_name" (PyStr "latitude")
  else if decide (name = "Longitude") then Xr.set_attr a "standard_name" (PyStr "longitude")
  else a.

(** A file with a dimension called [columns] in lower case and no
    [Columns]. *)
Definition lower_case_file : Xr.Dataset :=
  {| Xr.ds_dims := [("columns", 3%nat); ("rows", 2%nat)];
     Xr.ds_vars := [("CloudMask", Xr.set_dims Sample.cloud_mask_var ["rows"; "columns"])] |}.

(** A file with the 375 m grid only. *)
Definition fine_grid_file : Xr.Dataset :=
  {| Xr.ds_dims := [("Along_Track_375m", 2%nat); ("Along_Scan_375m", 4%nat)];
     Xr.ds_vars := [("NDVI", Sample.ndvi_var)] |}.


(** * Properties *)

(** ** Results and dictionaries *)

Lemma bind_Ok {A B} (m : result A) (f : A → result B) (b : B) :
  (m ≫= f) = Ok b → ∃ a, m = Ok a ∧ f a = Ok b.
Proof. destruct m as [a|e]; simpl; [eauto | discriminate]. Qed.

Lemma getitem_Ok (d : dict) (key : string) (v : pyval) :
  Py.getitem d key = Ok v ↔ d !! key = Some v.
Proof.
  unfold Py.getitem. destruct (d !! key); split; intros H; congruence.
Qed.

Lemma getitem_missing (d : dict) (key : string) :
  d !! key = None → Py.getitem d key = Raise (KeyError (PyStr key)).
Proof. unfold Py.getitem. intros ->. reflexivity. Qed.

(** Inversion of a successful monadic computation, one bind at a time. *)
Ltac invert_bind H :=
  lazymatch type of H with
  | mbind _ _ = Ok _ =>
      let a := fresh "a" in
      let Ha := fresh "H" a in
      apply bind_Ok in H as (a & Ha & H)
  end.

(** ** rows_per_scans *)


(** C8, as stated, fails: the shape of a one-dimensional array has no
    second entry, and [rows_per_scans] raises [IndexError] instead of
    answering 16. *)
Lemma rows_per_scans_one_dimension :
  Xr.shape Sample.scan_line = [3%nat] ∧
  VIIRSJRRFileHandler.rows_per_scans Sample.scan_line = Raise IndexError ∧
  VIIRSJRRFileHandler.rows_per_scans Sample.scan_line ≠ Ok 16%Z.
Proof. split; [reflexivity|]. split; [reflexivity | discriminate]. Qed.


(** C8, amended: on a shape with at least two dimensions, of which the
    second has length [n], [rows_per_scans] returns 32 when [n] is 6400 and
    16 otherwise, so 32 if and only if [n] is 6400; the answer is the same
    for any two arrays of one shape. *)
Theorem rows_per_scans_spec (a : Xr.DataArray) (n : nat) :
  Xr.shape a !! 1%nat = Some n →
  VIIRSJRRFileHandler.rows_per_scans a
    = Ok (if decide (Z.of_nat n = 6400%Z) then 32%Z else 16%Z) ∧
  (VIIRSJRRFileHandler.rows_per_scans a = Ok 32%Z ↔ Z.of_nat n = 6400%Z) ∧
  (VIIRSJRRFileHandler.rows_per_scans a = Ok 16%Z ↔ Z.of_nat n ≠ 6400%Z) ∧
  ∀ b, Xr.shape b = Xr.shape a →
       VIIRSJRRFileHandler.rows_per_scans b = VIIRSJRRFileHandler.rows_per_scans a.
Proof.
  intros Hn.
  assert (Hb : ∀ b, Xr.shape b = Xr.shape a →
    VIIRSJRRFileHandler.rows_per_scans b = VIIRSJRRFileHandler.rows_per_scans a).
  { intros b Hb. unfold VIIRSJRRFileHandler.rows_per_scans. by rewrite Hb. }
  split_and!; [| | | exact Hb];
    unfold VIIRSJRRFileHandler.rows_per_scans; rewrite Hn;
    destruct (Z.eqb_spec (Z.of_nat n) 6400) as [Heq|Hne];
    try (rewrite decide_True by done); try (rewrite decide_False by done);
    try reflexivity; split; intros H; try done; try discriminate.
Qed.

Lemma rows_per_scans_spec_witness :
  VIIRSJRRFileHandler.rows_per_scans Sample.i_band_row = Ok 32%Z ∧
  VIIRSJRRFileHandler.rows_per_scans Sample.cloud_mask_var = Ok 16%Z.
Proof.
  split.
  - exact (proj1 (rows_per_scans_spec Sample.i_band_row (Z.to_nat 6400) eq_refl)).
  - exact (proj1 (rows_per_scans_spec Sample.cloud_mask_var 3%nat eq_refl)).
Defined.

(** ** Platform names *)

Lemma platform_dict_lookup (code : string) :
  VIIRSJRRFileHandler.platform_dict !! code =
    if decide (code = "NPP") then Some "Suomi-NPP"
    else if decide (code = "JPSS-1") then Some "NOAA-20"
    else if decide (code = "J01") then Some "NOAA-20"
    else if decide (code = "JPSS-2") then Some "NOAA-21"
    else if decide (code = "J02") then Some "NOAA-21"
    else None.
Proof.
  unfold VIIRSJRRFileHandler.platform_dict. simpl.
  rewrite !lookup_insert, lookup_empty.
  repeat case_decide; subst; congruence.
Qed.

Lemma platform_dict_known (code : string) :
  is_Some (VIIRSJRRFileHandler.platform_dict !! code) ↔ code ∈ known_platform_codes.
Proof.
  rewrite platform_dict_lookup. unfold known_platform_codes. split.
  - intros [name Hname].
    repeat (case_decide; [subst code; rewrite !elem_of_cons; by eauto 10 |]).
    discriminate.
  - intros Hin.
    repeat (apply elem_of_cons in Hin as [->|Hin]; [by eexists |]).
    by apply elem_of_nil in Hin.
Qed.

Lemma platform_name_eq (self : Handler) (code : string) :
  filename_info self !! "platform_shortname" = Some (PyStr code) →
  VIIRSJRRFileHandler.platform_name self =
    match VIIRSJRRFileHandler.platform_dict !! Py.upper code with
    | Some name => Ok name
    | None => Raise (KeyError (PyStr (Py.upper code)))
    end.
Proof.
  intros Hcode. unfold VIIRSJRRFileHandler.platform_name, Py.getitem.
  rewrite Hcode. reflexivity.
Qed.

(** Upper-casing a second time changes nothing: the lookup does not see
    the case of the code. *)
Lemma upper_ascii_idemp (a : ascii) :
  Py.upper_ascii (Py.upper_ascii a) = Py.upper_ascii a.
Proof. destruct a as [[] [] [] [] [] [] [] []]; reflexivity. Qed.

Lemma upper_idemp (s : string) : Py.upper (Py.upper s) = Py.upper s.
Proof.
  induction s as [|a s IH]; simpl; [reflexivity|].
  by rewrite upper_ascii_idemp, IH.
Qed.

(** C3, as stated, fails: with a platform code outside the table the
    handler is constructed all the same. *)
Lemma unknown_platform_constructs :
  (Py.upper "xyz" ∉ known_platform_codes) ∧
  is_ok (VIIRSJRRFileHandler_new "JRR-CloudMask_v2r3_xyz.nc"
           {[ "platform_shortname" := PyStr "xyz" ]}
           Sample.cloud_mask_filetype Sample.cloud_mask_file) = true.
Proof.
  split; [|reflexivity].
  rewrite <- platform_dict_known. vm_compute. intros [? ?]; discriminate.
Qed.

(** C3, amended: construction does not look the platform code up. It
    succeeds whatever the code is (provided the dimensions can be renamed)
    and records the code. The lookup happens when [platform_name] is read,
    as [get_dataset] does: a code outside NPP, JPSS-1, J01, JPSS-2, J02
    (compared in upper case) then raises [KeyError], there is no default;
    a known code maps through the fixed table whatever its case, J01 to
    NOAA-20 and npp to Suomi-NPP. *)
Theorem platform_lookup_on_read (class : handler_class) (fname : string)
    (fi fti : dict) (opened ds : Xr.Dataset) (code : string) :
  fi !! "platform_shortname" = Some (PyStr code) →
  VIIRSJRRFileHandler.rename_spatial_dims opened = Ok ds →
  ∃ h, VIIRSJRRFileHandler.__init__ class fname fi fti opened = Ok h ∧
       algorithm_version h = PyStr code ∧
       filename_info h = fi ∧
       (Py.upper code ∉ known_platform_codes →
          VIIRSJRRFileHandler.platform_name h = Raise (KeyError (PyStr (Py.upper code))) ∧
          ∀ info, ¬ ∃ out, get_dataset h info = Ok out) ∧
       (Py.upper code ∈ known_platform_codes →
          ∃ name, VIIRSJRRFileHandler.platform_dict !! Py.upper code = Some name ∧
                  VIIRSJRRFileHandler.platform_name h = Ok name) ∧
       (Py.upper code = "J01" → VIIRSJRRFileHandler.platform_name h = Ok "NOAA-20") ∧
       (Py.upper code = "NPP" → VIIRSJRRFileHandler.platform_name h = Ok "Suomi-NPP").
Proof.
  intros Hcode Hren. unfold VIIRSJRRFileHandler.__init__.
  rewrite Hren. simpl. rewrite (proj2 (getitem_Ok _ _ _) Hcode). simpl.
  eexists. split; [reflexivity|]. simpl. split; [reflexivity|]. split; [reflexivity|].
  match goal with |- context [VIIRSJRRFileHandler.platform_name ?h] => set (self := h) end.
  assert (Hname := platform_name_eq self code Hcode).
  split_and!.
  - intros Hunknown. rewrite <- platform_dict_known in Hunknown.
    destruct (VIIRSJRRFileHandler.platform_dict !! Py.upper code) as [name|] eqn:Hdict.
    { exfalso. apply Hunknown. eauto. }
    split; [exact Hname|].
    intros info (out & Hout). unfold get_dataset in Hout.
    repeat invert_bind Hout. congruence.
  - intros Hknown. rewrite <- platform_dict_known in Hknown.
    destruct Hknown as [name Hdict]. exists name. by rewrite Hname, Hdict.
  - intros Hup. by rewrite Hname, Hup.
  - intros Hup. by rewrite Hname, Hup.
Qed.

Lemma platform_lookup_on_read_witness :
  ∃ h, VIIRSJRRFileHandler.__init__ VIIRSJRRFileHandler_class
         "JRR-CloudMask_v2r3_xyz.nc" {[ "platform_shortname" := PyStr "xyz" ]}
         Sample.cloud_mask_filetype Sample.cloud_mask_file = Ok h ∧
       VIIRSJRRFileHandler.platform_name h = Raise (KeyError (PyStr "XYZ")).
Proof.
  assert (Hcode : ({[ "platform_shortname" := PyStr "xyz" ]} : dict)
                    !! "platform_shortname" = Some (PyStr "xyz")) by reflexivity.
  assert (Hren : VIIRSJRRFileHandler.rename_spatial_dims Sample.cloud_mask_file
                 = Ok Sample.cloud_mask_file) by reflexivity.
  destruct (platform_lookup_on_read VIIRSJRRFileHandler_class
              "JRR-CloudMask_v2r3_xyz.nc" _ Sample.cloud_mask_filetype _ _ _
              Hcode Hren) as (h & Hh & _ & _ & Hunknown & _).
  exists h. split; [exact Hh|].
  apply Hunknown. rewrite <- platform_dict_known. vm_compute.
  intros [? ?]; discriminate.
Defined.

(** ** Dimension names *)

Lemma rename_spatial_dims_untouched (ds : Xr.Dataset) :
  Xr.has_dim ds "columns" = false →
  Xr.has_dim ds "Along_Track_375m" = false →
  VIIRSJRRFileHandler.rename_spatial_dims ds = Ok ds.
Proof.
  intros Hc Ha. unfold VIIRSJRRFileHandler.rename_spatial_dims.
  by rewrite Hc, Ha.
Qed.

(** The dual convention is renamed: both grids end up on [x] and [y]. *)
Lemma dual_grid_renamed :
  (h ← VIIRSSurfaceReflectanceWithVIHandler_new "SurfRefl_v1r1_j01.nc"
         Sample.filename_info_j01 Sample.surf_refl_filetype Sample.surf_refl_file;
   Ok (fst <$> Xr.ds_dims (nc h), (λ kv, Xr.dims (snd kv)) <$> Xr.ds_vars (nc h)))
  = Ok (["y"; "x"], [["y"; "x"]; ["y"; "x"]; ["y"; "x"]; ["y"; "x"]]).
Proof. reflexivity. Qed.

Lemma rename_vars_Ok (name_dict : list (string * string))
    (vars acc res : list (string * Xr.DataArray)) :
  Xr.rename_vars name_dict vars acc = Ok res →
  res = (acc ++ ((λ kv, (Xr.new_name name_dict kv.1,
                         Xr.set_dims kv.2 (Xr.new_name name_dict <$> Xr.dims kv.2)))
                <$> vars))%list.
Proof.
  revert acc. induction vars as [|[k a] vars IH]; intros acc; simpl.
  - intros [= ->]. by rewrite app_nil_r.
  - destruct (Xr.assoc_mem _ acc); [done|].
    intros Hres. apply IH in Hres. by rewrite <- app_assoc in Hres.
Qed.

Lemma rename_Ok (ds ds' : Xr.Dataset) (name_dict : list (string * string)) :
  Xr.rename ds name_dict = Ok ds' →
  Xr.ds_dims ds' = Xr.rename_dims name_dict (Xr.ds_dims ds) ∧
  Xr.ds_vars ds'
  = (λ kv, (Xr.new_name name_dict kv.1,
            Xr.set_dims kv.2 (Xr.new_name name_dict <$> Xr.dims kv.2)))
    <$> Xr.ds_vars ds.
Proof.
  unfold Xr.rename. destruct (forallb _ _); [|done].
  intros H. invert_bind H. injection H as <-.
  apply rename_vars_Ok in Ha. by subst.
Qed.

Lemma assoc_set_keys {V} (key : string) (v : V) (d : list (string * V)) (k : string) :
  k ∈ (Xr.assoc_set key v d).*1 ↔ k = key ∨ k ∈ d.*1.
Proof.
  induction d as [|[k' w] d IH]; simpl.
  - rewrite list_elem_of_singleton, elem_of_nil. tauto.
  - destruct (String.eqb_spec k' key) as [->|Hne]; simpl.
    + rewrite !elem_of_cons. tauto.
    + rewrite !elem_of_cons, IH. tauto.
Qed.

Lemma rename_dims_keys (name_dict : list (string * string)) (ds : list (string * nat))
    (k : string) :
  k ∈ (Xr.rename_dims name_dict ds).*1 ↔ ∃ d, d ∈ ds.*1 ∧ k = Xr.new_name name_dict d.
Proof.
  unfold Xr.rename_dims.
  assert (∀ acc : list (string * nat),
    k ∈ (foldl (λ acc kv, Xr.assoc_set (Xr.new_name name_dict kv.1) kv.2 acc) acc ds).*1
    ↔ k ∈ acc.*1 ∨ ∃ d, d ∈ ds.*1 ∧ k = Xr.new_name name_dict d) as Hgen.
  { induction ds as [|[d n] ds IH]; intros acc; simpl.
    - split; [tauto|]. intros [?|(d & Hd & _)]; [done|]. by apply elem_of_nil in Hd.
    - rewrite IH, assoc_set_keys. simpl. split.
      + intros [[->|?]|(d' & Hd' & ->)]; eauto.
        * right. exists d. split; [by left | done].
        * right. exists d'. split; [by right | done].
      + intros [?|(d' & Hd' & ->)]; [tauto|].
        apply elem_of_cons in Hd' as [->|Hd']; [tauto|]. right. eauto. }
  rewrite Hgen. simpl. rewrite elem_of_nil. tauto.
Qed.

Lemma new_name_two (a x b y k : string) :
  Xr.new_name [(a, x); (b, y)] k
  = if decide (k = a) then x else if decide (k = b) then y else k.
Proof.
  unfold Xr.new_name, Xr.assoc_get.
  destruct (String.eqb_spec a k) as [->|Ha].
  { by rewrite decide_True. }
  rewrite decide_False by done.
  destruct (String.eqb_spec b k) as [->|Hb].
  { by rewrite decide_True. }
  by rewrite decide_False.
Qed.

Lemma dual_convention_names (name : string) :
  Xr.new_name [("Along_Scan_750m", "x"); ("Along_Track_750m", "y")]
    (Xr.new_name [("Along_Scan_375m", "x"); ("Along_Track_375m", "y")] name)
  = dual_dim name.
Proof.
  rewrite !new_name_two. unfold dual_dim, canonical_dim.
  assert (∀ names : list string, Forall (λ n, n ≠ name) names → name ∉ names) as Hnot.
  { intros names Hall Hin. by apply (proj1 (Forall_forall _ _) Hall name). }
  destruct (decide (name = "Along_Scan_375m")) as [->|H1]; [reflexivity|].
  destruct (decide (name = "Along_Track_375m")) as [->|H2]; [reflexivity|].
  destruct (decide (name = "Along_Scan_750m")) as [->|H3]; [reflexivity|].
  destruct (decide (name = "Along_Track_750m")) as [->|H4]; [reflexivity|].
  rewrite !bool_decide_eq_false_2; [done | |]; apply Hnot; by repeat constructor.
Qed.

(** X14: the dual convention is renamed as the specification has it: when
    construction gets through the renaming of a file with the 375 m and
    750 m dimensions, every dimension of every variable and of the dataset
    has its canonical name, [x], [y] or the name it had. The sample file
    shows that construction does get through. *)
Lemma dual_convention_renamed (ds ds' : Xr.Dataset) :
  Xr.has_dim ds "columns" = false →
  Xr.has_dim ds "Along_Track_375m" = true →
  VIIRSJRRFileHandler.rename_spatial_dims ds = Ok ds' →
  (λ kv, Xr.dims kv.2) <$> Xr.ds_vars ds'
  = (λ kv, dual_dim <$> Xr.dims kv.2) <$> Xr.ds_vars ds ∧
  ∀ k, k ∈ (Xr.ds_dims ds').*1 ↔ ∃ d, d ∈ (Xr.ds_dims ds).*1 ∧ k = dual_dim d.
Proof.
  intros Hlower Hdual. unfold VIIRSJRRFileHandler.rename_spatial_dims.
  rewrite Hlower, Hdual. intros H. invert_bind H. rename a into ds1.
  apply rename_Ok in Ha as [Hdims1 Hvars1]. apply rename_Ok in H as [Hdims' Hvars'].
  split.
  - rewrite Hvars', Hvars1, <- !list_fmap_compose.
    apply list_fmap_ext. intros i [k a] _. simpl.
    rewrite <- list_fmap_compose. apply list_fmap_ext.
    intros j d _. simpl. apply dual_convention_names.
  - intros k. rewrite Hdims', rename_dims_keys. rewrite Hdims1. split.
    + intros (d1 & Hd1 & ->). apply rename_dims_keys in Hd1 as (d & Hd & ->).
      exists d. by rewrite dual_convention_names.
    + intros (d & Hd & ->). eexists. split.
      * apply rename_dims_keys. by exists d.
      * by rewrite dual_convention_names.
Qed.

(** X15: the branch for the plain convention cannot do its work: it runs only
    when a dimension is called [columns], and then stops on the renaming
    of [Columns] unless the file has that name as well. *)
Lemma rename_spatial_dims_lower_case (ds : Xr.Dataset) :
  Xr.has_dim ds "columns" = true →
  Xr.has_dim ds "Columns" = false → Xr.has_var ds "Columns" = false →
  VIIRSJRRFileHandler.rename_spatial_dims ds = Raise ValueError.
Proof.
  intros Hlower Hdim Hvar. unfold VIIRSJRRFileHandler.rename_spatial_dims, Xr.rename.
  rewrite Hlower. simpl. by rewrite Hdim, Hvar.
Qed.

(** C2 at a file with the plain convention: the test in [__init__] looks
    for a dimension called [columns], the file calls it [Columns], and so
    the handler is built with [Columns] and [Rows] left as they are, in
    the dataset and in its variables, where the specification has [x] and
    [y]. *)
Theorem columns_rows_not_renamed :
  (h ← VIIRSJRRFileHandler_new "JRR-CloudMask_v2r3_j01.nc"
         Sample.filename_info_j01 Sample.cloud_mask_filetype Sample.cloud_mask_file;
   Ok (Xr.ds_dims (nc h), (λ kv, Xr.dims (snd kv)) <$> Xr.ds_vars (nc h)))
  = Ok ([("Columns", 3%nat); ("Rows", 2%nat)],
        [["Rows"; "Columns"]; ["Rows"; "Columns"]]) ∧
  plain_dim <$> ["Rows"; "Columns"] = ["y"; "x"].
Proof. split; reflexivity. Qed.

(** ** Availability *)

Section Availability.

Variable file_type_matches : Handler → pyval → pyval.

Lemma available_loop_known (self : Handler) (is_avail : pyval) (ds_info : dict)
    (rest : list (pyval * dict)) :
  is_avail ≠ PyNone →
  VIIRSJRRFileHandler.available_loop file_type_matches self ((is_avail, ds_info) :: rest)
  = VIIRSJRRFileHandler.yield (is_avail, ds_info)
      (VIIRSJRRFileHandler.available_loop file_type_matches self rest).
Proof. intros Hne. simpl. by destruct is_avail. Qed.

Lemma available_loop_own_type (self : Handler) (ds_info : dict)
    (rest : list (pyval * dict)) (file_type name : pyval) (key : string) :
  ds_info !! "file_type" = Some file_type →
  file_type_matches self file_type ≠ PyNone →
  ds_info !! "name" = Some name →
  Py.get_default ds_info "file_key" name = PyStr key →
  VIIRSJRRFileHandler.available_loop file_type_matches self ((PyNone, ds_info) :: rest)
  = VIIRSJRRFileHandler.yield (PyBool (Xr.has_var (nc self) key), ds_info)
      (VIIRSJRRFileHandler.available_loop file_type_matches self rest).
Proof.
  intros Hft Hmatch Hname Hkey. simpl. unfold Py.getitem.
  rewrite Hft, Hname, Hkey. simpl.
  by destruct (file_type_matches self file_type).
Qed.

(** A descriptor of another file type is answered twice: after the pair
    with [None] the loop goes on to the presence test, where the branch
    for an already known availability leaves the iteration. *)
Lemma available_loop_other_type (self : Handler) (ds_info : dict)
    (rest : list (pyval * dict)) (file_type name : pyval) (key : string) :
  ds_info !! "file_type" = Some file_type →
  file_type_matches self file_type = PyNone →
  ds_info !! "name" = Some name →
  Py.get_default ds_info "file_key" name = PyStr key →
  VIIRSJRRFileHandler.available_loop file_type_matches self ((PyNone, ds_info) :: rest)
  = VIIRSJRRFileHandler.yield (PyNone, ds_info)
      (VIIRSJRRFileHandler.yield (PyBool (Xr.has_var (nc self) key), ds_info)
         (VIIRSJRRFileHandler.available_loop file_type_matches self rest)).
Proof.
  intros Hft Hmatch Hname Hkey. simpl. unfold Py.getitem.
  rewrite Hft, Hname, Hkey, Hmatch. reflexivity.
Qed.

End Availability.

(** C1 at a descriptor of another file type: the cloud mask handler is
    asked about NDVI, which belongs to the surface reflectance files, and
    yields two pairs for the one it was given, [(None, descriptor)] and
    then [(False, descriptor)]. *)
Theorem available_datasets_yields_twice :
  (h ← VIIRSJRRFileHandler_new "JRR-CloudMask_v2r3_j01.nc"
         Sample.filename_info_j01 Sample.cloud_mask_filetype Sample.cloud_mask_file;
   Ok (VIIRSJRRFileHandler.available_datasets Sample.file_type_matches h
         (Some [(PyNone, Sample.ndvi_info)])))
  = Ok ([(PyNone, Sample.ndvi_info); (PyBool false, Sample.ndvi_info)], None).
Proof. reflexivity. Qed.

(** The descriptor of the handler's own file type is answered once. *)
Lemma available_datasets_own_type :
  (h ← VIIRSJRRFileHandler_new "JRR-CloudMask_v2r3_j01.nc"
         Sample.filename_info_j01 Sample.cloud_mask_filetype Sample.cloud_mask_file;
   Ok (VIIRSJRRFileHandler.available_datasets Sample.file_type_matches h
         (Some [(PyNone, Sample.cloud_mask_info)])))
  = Ok ([(PyBool true, Sample.cloud_mask_info)], None).
Proof. reflexivity. Qed.

(** ** Descriptors without [file_key] *)

Lemma get_dataset_without_file_key (self : Handler) (info : dict) :
  info !! "file_key" = None →
  get_dataset self info = Raise (KeyError (PyStr "file_key")).
Proof.
  intros Hkey. unfold get_dataset. by rewrite (getitem_missing _ _ Hkey).
Qed.

Lemma surface_mask_without_file_key (self : Handler) (data_arr masked : Xr.DataArray)
    (ds_info : dict) :
  ds_info !! "file_key" = None →
  VIIRSJRRFileHandler._mask_invalid data_arr ds_info = Ok masked →
  VIIRSSurfaceReflectanceWithVIHandler._mask_invalid self data_arr ds_info
  = Raise (KeyError (PyStr "file_key")).
Proof.
  intros Hkey Hbase. unfold VIIRSSurfaceReflectanceWithVIHandler._mask_invalid.
  rewrite Hbase. simpl. by rewrite (getitem_missing _ _ Hkey).
Qed.

(** C7 at a descriptor that has a name and no [file_key]:
    [available_datasets] falls back on the name and reports the variable
    as present, [get_dataset] and the masking of the surface reflectance
    handler index the descriptor with ["file_key"] and raise [KeyError];
    with [file_key] set to the name, [get_dataset] returns the array. *)
Theorem file_key_default_only_in_available_datasets :
  let info : dict := {[ "name" := PyStr "CloudMask"; "file_type" := PyStr "jrr_cloudmask" ]} in
  let handler := VIIRSJRRFileHandler_new "JRR-CloudMask_v2r3_j01.nc"
                   Sample.filename_info_j01 Sample.cloud_mask_filetype
                   Sample.cloud_mask_file in
  (h ← handler;
   Ok (VIIRSJRRFileHandler.available_datasets Sample.file_type_matches h
         (Some [(PyNone, info)]))) = Ok ([(PyBool true, info)], None) ∧
  (h ← handler; get_dataset h info) = Raise (KeyError (PyStr "file_key")) ∧
  is_ok (h ← handler; get_dataset h (<["file_key" := PyStr "CloudMask"]> info)) = true ∧
  (h ← handler;
   VIIRSSurfaceReflectanceWithVIHandler._mask_invalid h Sample.cloud_mask_var info)
    = Raise (KeyError (PyStr "file_key")).
Proof. split_and!; reflexivity. Qed.

(** ** What masking leaves alone *)

Lemma same_labels_refl (a : Xr.DataArray) : same_labels a a.
Proof. by repeat split. Qed.

Lemma same_labels_trans (a b c : Xr.DataArray) :
  same_labels a b → same_labels b c → same_labels a c.
Proof.
  intros (? & ? & ? & ?) (? & ? & ? & ?). repeat split; congruence.
Qed.

Lemma align_Ok (d1 d2 : list string) (s1 s2 : list nat) :
  Xr.align d1 d2 s1 s2 = Ok tt ↔ d1 = d2 ∧ s1 = s2.
Proof.
  unfold Xr.align. repeat case_decide; split; intros Hx; try done;
    destruct Hx; congruence.
Qed.

Lemma where_labels (a b : Xr.DataArray) (cond : Xr.Labelled bool) :
  Xr.where_ a cond = Ok b → same_labels a b.
Proof.
  unfold Xr.where_. intros H. invert_bind H. injection H as <-.
  repeat split; simpl; by destruct (Xr.data a).
Qed.

Lemma base_mask_invalid_labels (a b : Xr.DataArray) (ds_info : dict) :
  VIIRSJRRFileHandler._mask_invalid a ds_info = Ok b → same_labels a b.
Proof.
  unfold VIIRSJRRFileHandler._mask_invalid. intros H.
  invert_bind H. destruct a0.
  { injection H as <-. apply same_labels_refl. }
  destruct (negb (Py.is_none (Py.get ds_info "_FillValue"))).
  { invert_bind H. by apply where_labels in H. }
  destruct (negb (Py.is_none _)).
  - repeat invert_bind H. by apply where_labels in H.
  - injection H as <-. apply same_labels_refl.
Qed.

Lemma surface_mask_invalid_labels (self : Handler) (a b : Xr.DataArray)
    (ds_info : dict) :
  VIIRSSurfaceReflectanceWithVIHandler._mask_invalid self a ds_info = Ok b →
  same_labels a b.
Proof.
  unfold VIIRSSurfaceReflectanceWithVIHandler._mask_invalid. intros H.
  invert_bind H. apply base_mask_invalid_labels in Ha0.
  invert_bind H. destruct (Py.in_strs _ _).
  - invert_bind H. apply where_labels in H. by eapply same_labels_trans.
  - by injection H as <-.
Qed.

Lemma self_mask_invalid_labels (self : Handler) (a b : Xr.DataArray)
    (ds_info : dict) :
  self_mask_invalid self a ds_info = Ok b → same_labels a b.
Proof.
  unfold self_mask_invalid. destruct (cls self).
  - apply base_mask_invalid_labels.
  - apply surface_mask_invalid_labels.
Qed.

(** ** The masking policy *)

Lemma zip_with_map {A B C D} (f : B → C → D) (g : A → B) (h : A → C) (l : list A) :
  Np.zip_with f (List.map g l) (List.map h l) = List.map (fun x => f (g x) (h x)) l.
Proof. induction l as [|x l IH]; simpl; [reflexivity | by rewrite IH]. Qed.

Lemma where_compare (a : Xr.DataArray) (keep : Np.number → bool) :
  Xr.where_ a (Xr.compare keep a) = Ok (masked_unless keep a).
Proof.
  unfold Xr.where_, Xr.compare. simpl.
  rewrite (proj2 (align_Ok _ _ _ _)) by done. simpl.
  unfold masked_unless, Xr.where_values, Xr.as_floats.
  by rewrite zip_with_map.
Qed.

Lemma band_compare (a : Xr.DataArray) (p q : Np.number → bool) :
  Xr.band (Xr.compare p a) (Xr.compare q a) = Ok (Xr.compare (fun x => p x && q x) a).
Proof.
  unfold Xr.band, Xr.binop, Xr.compare. simpl.
  rewrite (proj2 (align_Ok _ _ _ _)) by done. simpl.
  by rewrite zip_with_map.
Qed.

Lemma lacks_fill_not_trusted (a : Xr.DataArray) :
  lacks_fill a = true →
  (if Py.is_none (Py.get (Xr.encoding a) "_FillValue") then Ok false
   else isnan ← Xr.np_isnan (Py.get (Xr.encoding a) "_FillValue"); Ok (negb isnan))
  = Ok false.
Proof.
  unfold lacks_fill, Py.get.
  destruct (Xr.encoding a !! "_FillValue") as [[]|]; simpl; try done.
  by intros ->.
Qed.

Lemma declares_fill_trusted (a : Xr.DataArray) :
  declares_fill a = true →
  (if Py.is_none (Py.get (Xr.encoding a) "_FillValue") then Ok false
   else isnan ← Xr.np_isnan (Py.get (Xr.encoding a) "_FillValue"); Ok (negb isnan))
  = Ok true.
Proof.
  unfold declares_fill, Py.get.
  destruct (Xr.encoding a !! "_FillValue") as [[]|]; simpl; try done.
  by intros ->.
Qed.

Lemma descriptor_fill_Some (ds_info : dict) (v : pyval) :
  descriptor_fill ds_info = Some v →
  Py.get ds_info "_FillValue" = v ∧ Py.is_none v = false.
Proof.
  unfold descriptor_fill, Py.get.
  destruct (ds_info !! "_FillValue") as [[]|]; simpl; intros Hv; by simplify_eq.
Qed.

Lemma descriptor_fill_None (ds_info : dict) :
  descriptor_fill ds_info = None → Py.get ds_info "_FillValue" = PyNone.
Proof.
  unfold descriptor_fill, Py.get.
  destruct (ds_info !! "_FillValue") as [[]|]; simpl; intros Hv; by simplify_eq.
Qed.

Lemma known_valid_range_get (a : Xr.DataArray) (ds_info : dict) :
  Py.get_default ds_info "valid_range" (Py.get (Xr.attrs a) "valid_range")
  = default PyNone (known_valid_range a ds_info).
Proof.
  unfold known_valid_range, Py.get_default, Py.get.
  destruct (ds_info !! "valid_range") as [[]|]; simpl; try done.
  by destruct (Xr.attrs a !! "valid_range") as [[]|].
Qed.

(** C4: [_mask_invalid] applies the first applicable rule only. A numeric
    fill value other than NaN in the encoding: the array comes back as it
    is, whatever the descriptor says. Otherwise a fill value in the
    descriptor: exactly the elements equal to it are masked. Otherwise a
    known valid range, that of the descriptor before that of the source
    attributes: exactly the elements outside [lo, hi], bounds included,
    are masked. Otherwise the array comes back as it is. *)
Theorem mask_invalid_first_rule (data_arr : Xr.DataArray) (ds_info : dict) :
  (declares_fill data_arr = true →
     VIIRSJRRFileHandler._mask_invalid data_arr ds_info = Ok data_arr) ∧
  (∀ v fill,
     lacks_fill data_arr = true →
     descriptor_fill ds_info = Some v → Xr.as_number v = Ok fill →
     VIIRSJRRFileHandler._mask_invalid data_arr ds_info
     = Ok (masked_unless (fun x => negb (Np.eqb x fill)) data_arr)) ∧
  (∀ lo hi rest min max,
     lacks_fill data_arr = true →
     descriptor_fill ds_info = None →
     known_valid_range data_arr ds_info = Some (PyList (lo :: hi :: rest)) →
     Xr.as_number lo = Ok min → Xr.as_number hi = Ok max →
     VIIRSJRRFileHandler._mask_invalid data_arr ds_info
     = Ok (masked_unless (fun x => Np.leb min x && Np.leb x max) data_arr)) ∧
  (lacks_fill data_arr = true →
   descriptor_fill ds_info = None →
   known_valid_range data_arr ds_info = None →
   VIIRSJRRFileHandler._mask_invalid data_arr ds_info = Ok data_arr).
Proof.
  split_and!.
  - intros Hfill. unfold VIIRSJRRFileHandler._mask_invalid.
    by rewrite (declares_fill_trusted _ Hfill).
  - intros v fill Hnofill Hv Hnum. unfold VIIRSJRRFileHandler._mask_invalid.
    rewrite (lacks_fill_not_trusted _ Hnofill). simpl.
    apply descriptor_fill_Some in Hv as [-> ->]. simpl.
    rewrite Hnum. simpl. apply where_compare.
  - intros lo hi rest min max Hnofill Hnone Hrange Hlo Hhi.
    unfold VIIRSJRRFileHandler._mask_invalid.
    rewrite (lacks_fill_not_trusted _ Hnofill). simpl.
    rewrite (descriptor_fill_None _ Hnone). simpl.
    rewrite known_valid_range_get, Hrange. simpl.
    rewrite Hlo. simpl. rewrite Hhi. simpl.
    unfold Xr.ge, Xr.le. rewrite band_compare. simpl.
    apply where_compare.
  - intros Hnofill Hnone Hrange. unfold VIIRSJRRFileHandler._mask_invalid.
    rewrite (lacks_fill_not_trusted _ Hnofill). simpl.
    rewrite (descriptor_fill_None _ Hnone). simpl.
    by rewrite known_valid_range_get, Hrange.
Qed.

Lemma mask_invalid_first_rule_witness :
  let both : dict :=
    {[ "_FillValue" := PyInt 3; "valid_range" := PyList [PyInt 0; PyInt 1] ]} in
  let range : dict := {[ "valid_range" := PyList [PyInt 1; PyInt 2] ]} in
  VIIRSJRRFileHandler._mask_invalid Sample.latitude_var both = Ok Sample.latitude_var ∧
  Xr.data <$> VIIRSJRRFileHandler._mask_invalid Sample.cloud_mask_var both
    = Ok (Xr.Float64 (Np.mk_ndarray [2; 3]%nat [0; 1; 2; nan; 0; 1]%float)) ∧
  Xr.data <$> VIIRSJRRFileHandler._mask_invalid Sample.cloud_mask_var range
    = Ok (Xr.Float64 (Np.mk_ndarray [2; 3]%nat [nan; 1; 2; nan; nan; 1]%float)) ∧
  VIIRSJRRFileHandler._mask_invalid Sample.cloud_mask_var ∅ = Ok Sample.cloud_mask_var.
Proof.
  intros both range. split_and!.
  - destruct (mask_invalid_first_rule Sample.latitude_var both) as (Htrust & _).
    apply Htrust. reflexivity.
  - destruct (mask_invalid_first_rule Sample.cloud_mask_var both) as (_ & Hfill & _).
    rewrite (Hfill (PyInt 3) (Np.NInt 3)); reflexivity.
  - destruct (mask_invalid_first_rule Sample.cloud_mask_var range) as (_ & _ & Hrange & _).
    rewrite (Hrange (PyInt 1) (PyInt 2) [] (Np.NInt 1) (Np.NInt 2)); reflexivity.
  - destruct (mask_invalid_first_rule Sample.cloud_mask_var ∅) as (_ & _ & _ & Hnone).
    apply Hnone; reflexivity.
Defined.

(** ** get_dataset, step by step *)

Lemma eq_str_true (v : pyval) (s : string) : Py.eq_str v s = true ↔ v = PyStr s.
Proof.
  destruct v; simpl; try (split; intros; congruence).
  rewrite String.eqb_eq. split; intros; congruence.
Qed.

Lemma decode_flag_meanings_data (a : Xr.DataArray) :
  Xr.data (VIIRSJRRFileHandler._decode_flag_meanings a) = Xr.data a.
Proof.
  unfold VIIRSJRRFileHandler._decode_flag_meanings.
  destruct (Py.get _ _); try reflexivity. by destruct (negb _).
Qed.

Lemma decode_flag_meanings_other (a : Xr.DataArray) (key : string) :
  key ≠ "flag_meanings" →
  Xr.attrs (VIIRSJRRFileHandler._decode_flag_meanings a) !! key = Xr.attrs a !! key.
Proof.
  intros Hkey. unfold VIIRSJRRFileHandler._decode_flag_meanings.
  destruct (Py.get _ _); try reflexivity.
  destruct (negb _); [|reflexivity]. simpl. by rewrite lookup_insert_ne.
Qed.

Lemma get_dataset_inv (self : Handler) (info : dict) (out : Xr.DataArray) :
  get_dataset self info = Ok out →
  ∃ key src masked platform_name rows_per_scan,
    info !! "file_key" = Some key ∧
    nc_getitem self key = Ok src ∧
    self_mask_invalid self src info = Ok masked ∧
    same_labels src masked ∧
    VIIRSJRRFileHandler.platform_name self = Ok platform_name ∧
    out = finished self info masked platform_name rows_per_scan.
Proof.
  unfold get_dataset. intros H.
  invert_bind H. apply getitem_Ok in Ha.
  invert_bind H. invert_bind H. invert_bind H. invert_bind H.
  injection H as <-.
  eexists _, _, _, _, _. split_and!; try eassumption; try reflexivity.
  by eapply self_mask_invalid_labels.
Qed.

Lemma finished_data (self : Handler) (info : dict) (masked : Xr.DataArray)
    (pname : string) (rps : Z) :
  Xr.data (finished self info masked pname rps) =
  Xr.data (if Py.eq_str (normalize_units
                 (Py.get_default info "units" (Py.get (Xr.attrs masked) "units"))) "%"
              && Py.in_strs (Py.get (Xr.attrs masked) "units") ["1"; "unitless"]
           then Xr.imul masked 100%float else masked).
Proof.
  unfold finished. simpl. rewrite decode_flag_meanings_data.
  by destruct (info !! "standard_name").
Qed.

Lemma finished_units (self : Handler) (info : dict) (masked : Xr.DataArray)
    (pname : string) (rps : Z) :
  Xr.attrs (finished self info masked pname rps) !! "units" =
  Some (normalize_units (Py.get_default info "units" (Py.get (Xr.attrs masked) "units"))).
Proof.
  unfold finished. simpl. rewrite !lookup_insert_ne by done.
  rewrite decode_flag_meanings_other by done.
  destruct (info !! "standard_name"); simpl.
  - rewrite lookup_insert_ne by done. apply lookup_insert_eq.
  - apply lookup_insert_eq.
Qed.

Lemma finished_standard_name (self : Handler) (info : dict) (masked : Xr.DataArray)
    (pname : string) (rps : Z) :
  Xr.attrs (finished self info masked pname rps) !! "standard_name" =
  match info !! "standard_name" with
  | Some standard_name => Some standard_name
  | None => Xr.attrs masked !! "standard_name"
  end.
Proof.
  unfold finished. simpl. rewrite !lookup_insert_ne by done.
  rewrite decode_flag_meanings_other by done.
  destruct (info !! "standard_name"); simpl.
  - apply lookup_insert_eq.
  - rewrite lookup_insert_ne by done. by destruct (_ && _).
Qed.

Lemma finished_other (self : Handler) (info : dict) (masked : Xr.DataArray)
    (pname : string) (rps : Z) (key : string) :
  key ∉ written_attrs →
  Xr.attrs (finished self info masked pname rps) !! key = Xr.attrs masked !! key.
Proof.
  unfold written_attrs. rewrite !not_elem_of_cons. intros (? & ? & ? & ? & ? & ? & _).
  unfold finished. simpl. rewrite !lookup_insert_ne by done.
  rewrite decode_flag_meanings_other by done.
  destruct (info !! "standard_name"); simpl.
  - rewrite !lookup_insert_ne by done. by destruct (_ && _).
  - rewrite !lookup_insert_ne by done. by destruct (_ && _).
Qed.

Lemma finished_flag_meanings (self : Handler) (info : dict) (masked : Xr.DataArray)
    (pname : string) (rps : Z) :
  Xr.attrs (finished self info masked pname rps) !! "flag_meanings" =
  match Xr.attrs masked !! "flag_meanings" with
  | Some (PyStr s) =>
      if Py.contains Py.newline s then Some (PyStr s)
      else Some (PyList (List.map PyStr (Py.split Py.space s)))
  | other => other
  end.
Proof.
  unfold finished. simpl. rewrite !lookup_insert_ne by done.
  match goal with
  | |- Xr.attrs (VIIRSJRRFileHandler._decode_flag_meanings ?a) !! _ = _ =>
      assert (Hsame : Xr.attrs a !! "flag_meanings" = Xr.attrs masked !! "flag_meanings");
      [| generalize dependent a; intros named Hsame ]
  end.
  { destruct (info !! "standard_name"); simpl;
      rewrite !lookup_insert_ne by done; by destruct (_ && _). }
  unfold VIIRSJRRFileHandler._decode_flag_meanings, Py.get.
  rewrite Hsame.
  destruct (Xr.attrs masked !! "flag_meanings") as [v|] eqn:Hfm; simpl.
  - destruct v; try (by rewrite Hsame).
    destruct (Py.contains Py.newline s); simpl; [by rewrite Hsame|].
    apply lookup_insert_eq.
  - by rewrite Hsame.
Qed.

(** ** Units *)

Lemma normalize_units_output (resolved : pyval) :
  normalize_units resolved = output_units resolved.
Proof.
  unfold normalize_units, output_units.
  destruct resolved as [| | | |s|]; simpl; try reflexivity.
  destruct (String.eqb_spec s "unitless") as [->|Hne]; [reflexivity|].
  destruct s as [|a s]; [reflexivity|].
  repeat (match goal with
          | |- context [match ?x with _ => _ end] => destruct x; try reflexivity
          end).
  by contradict Hne.
Qed.

Lemma resolved_units_get (src masked : Xr.DataArray) (info : dict) :
  Xr.attrs masked = Xr.attrs src →
  Py.get_default info "units" (Py.get (Xr.attrs masked) "units") = resolved_units src info.
Proof.
  intros Hattrs. unfold Py.get_default, Py.get, resolved_units, source_units.
  rewrite Hattrs. by destruct (info !! "units").
Qed.

Lemma output_units_percent (resolved : pyval) :
  output_units resolved = PyStr "%" ↔ resolved = PyStr "%".
Proof.
  rewrite <- normalize_units_output. unfold normalize_units.
  destruct (Py.is_none resolved || Py.eq_str resolved "unitless") eqn:Hnorm; [|done].
  split; [discriminate|]. intros ->. discriminate.
Qed.

Lemma scaling_test (src masked : Xr.DataArray) (info : dict) :
  Xr.attrs masked = Xr.attrs src →
  Py.eq_str (normalize_units
               (Py.get_default info "units" (Py.get (Xr.attrs masked) "units"))) "%"
    && Py.in_strs (Py.get (Xr.attrs masked) "units") ["1"; "unitless"] = true
  ↔ fraction_to_percent src info.
Proof.
  intros Hattrs. rewrite (resolved_units_get src) by done.
  rewrite normalize_units_output, andb_true_iff, eq_str_true, output_units_percent.
  unfold fraction_to_percent, Py.in_strs, source_units, Py.get. rewrite Hattrs. simpl.
  rewrite orb_false_r, orb_true_iff, !eq_str_true. reflexivity.
Qed.

Lemma imul_floats (a : Xr.DataArray) (x : float) :
  Xr.as_floats (Xr.data (Xr.imul a x))
  = List.map (fun y => (y * x)%float) (Xr.as_floats (Xr.data a)).
Proof.
  unfold Xr.imul, Xr.as_floats. simpl. by rewrite !List.map_map.
Qed.

(** C6: the unit written on the array [get_dataset] returns is the unit
    of the descriptor when it has one and that of the source otherwise,
    with [None] and "unitless" turned into "1". When that unit is "%" and
    the unit of the source is "1" or "unitless", the unit written is "%"
    and every value is the masked value times 100; in every other case
    the values are the masked values. *)
Theorem get_dataset_units (self : Handler) (info : dict) (out : Xr.DataArray) :
  get_dataset self info = Ok out →
  ∃ key src masked,
    info !! "file_key" = Some key ∧
    nc_getitem self key = Ok src ∧
    self_mask_invalid self src info = Ok masked ∧
    Xr.attrs out !! "units" = Some (output_units (resolved_units src info)) ∧
    (fraction_to_percent src info →
       Xr.attrs out !! "units" = Some (PyStr "%") ∧
       Xr.as_floats (Xr.data out)
       = List.map (fun y => (y * 100)%float) (Xr.as_floats (Xr.data masked))) ∧
    (¬ fraction_to_percent src info → Xr.data out = Xr.data masked).
Proof.
  intros Hout.
  apply get_dataset_inv in Hout
    as (key & src & masked & pname & rps & Hkey & Hsrc & Hmask & Hlabels & _ & ->).
  destruct Hlabels as (_ & Hattrs & _ & _).
  exists key, src, masked. split_and!; try done.
  - by rewrite finished_units, (resolved_units_get src), normalize_units_output.
  - intros Hpercent. split.
    + rewrite finished_units, (resolved_units_get src), normalize_units_output by done.
      destruct Hpercent as [-> _]. reflexivity.
    + rewrite finished_data.
      rewrite (proj2 (scaling_test src masked info Hattrs) Hpercent).
      apply imul_floats.
  - intros Hplain. rewrite finished_data.
    destruct (_ && _) eqn:Htest; [|reflexivity].
    apply (scaling_test src masked info Hattrs) in Htest. contradiction.
Qed.

Lemma sample_handlers :
  VIIRSJRRFileHandler_new "JRR-CloudMask_v2r3_j01.nc" Sample.filename_info_j01
    Sample.cloud_mask_filetype Sample.cloud_mask_file = Ok Sample.cloud_mask_handler ∧
  VIIRSSurfaceReflectanceWithVIHandler_new "SurfRefl_v1r1_j01.nc" Sample.filename_info_j01
    Sample.surf_refl_filetype Sample.surf_refl_file = Ok Sample.surf_refl_handler.
Proof. split; reflexivity. Qed.

Lemma get_dataset_units_witness :
  ∃ out,
    get_dataset Sample.surf_refl_handler Sample.ndvi_info = Ok out ∧
    Xr.attrs out !! "units" = Some (PyStr "%") ∧
    Xr.as_floats (Xr.data out) = [nan; nan; 75; 12.5; nan; nan; 87.5; 100]%float.
Proof.
  destruct (get_dataset Sample.surf_refl_handler Sample.ndvi_info) as [out|e] eqn:Hout;
    [|vm_compute in Hout; discriminate].
  exists out. split; [reflexivity|].
  destruct (get_dataset_units _ _ out Hout)
    as (key & src & masked & Hkey & Hsrc & Hmask & Hunits & Hpercent & _).
  vm_compute in Hkey. injection Hkey as <-.
  vm_compute in Hsrc. injection Hsrc as <-.
  vm_compute in Hmask. injection Hmask as <-.
  destruct Hpercent as [Hu Hdata].
  { split; [reflexivity | left; reflexivity]. }
  split; [exact Hu|]. rewrite Hdata. reflexivity.
Defined.

(** ** Flag meanings *)

Lemma split_nonempty (c : ascii) (s : string) : Py.split c s ≠ [].
Proof.
  destruct s as [|a s]; simpl; [done|].
  destruct (Ascii.eqb a c); [done|]. by destruct (Py.split c s).
Qed.

(** Joining the tokens with the separator gives the string back. *)
Lemma join_split (c : ascii) (s : string) : Py.join c (Py.split c s) = s.
Proof.
  induction s as [|a s IH]; [reflexivity|]. simpl.
  destruct (Ascii.eqb_spec a c) as [->|Hne].
  - pose proof (split_nonempty c s) as Hne.
    destruct (Py.split c s) as [|tok toks]; [done|].
    simpl in *. by rewrite IH.
  - pose proof (split_nonempty c s) as Hsplit.
    destruct (Py.split c s) as [|tok toks]; [done|].
    simpl in *. destruct toks; simpl in *; by rewrite <- IH.
Qed.

(** No token contains the separator. *)
Lemma split_tokens (c : ascii) (s : string) :
  Forall (fun tok => Py.contains c tok = false) (Py.split c s).
Proof.
  induction s as [|a s IH]; simpl; [by repeat constructor|].
  destruct (Ascii.eqb_spec a c) as [->|Hne].
  - by constructor.
  - destruct (Py.split c s) as [|tok toks]; simpl.
    + repeat constructor. simpl. by rewrite (proj2 (Ascii.eqb_neq _ _) Hne).
    + inversion IH as [|? ? Htok Htoks]; subst. constructor; [|done].
      simpl. by rewrite (proj2 (Ascii.eqb_neq _ _) Hne).
Qed.

(** The tokens are the only such list. *)
Lemma split_join (c : ascii) (toks : list string) :
  toks ≠ [] →
  Forall (fun tok => Py.contains c tok = false) toks →
  Py.split c (Py.join c toks) = toks.
Proof.
  induction toks as [|tok toks IH]; [done|]. intros _ Hall.
  inversion Hall as [|? ? Htok Htoks]; subst.
  destruct toks as [|tok' toks].
  - simpl. clear IH Hall Htoks.
    induction tok as [|a tok IHt]; [reflexivity|]. simpl in *.
    apply orb_false_iff in Htok as [Ha Htok]. rewrite Ha.
    by rewrite (IHt Htok).
  - specialize (IH ltac:(done) Htoks).
    change (Py.join c (tok :: tok' :: toks))
      with (tok ++ String c (Py.join c (tok' :: toks))).
    clear Hall Htoks.
    induction tok as [|a tok IHt]; simpl in *.
    + rewrite Ascii.eqb_refl. by rewrite IH.
    + apply orb_false_iff in Htok as [Ha Htok]. rewrite Ha.
      by rewrite (IHt Htok).
Qed.

Example split_flag_meanings :
  Py.split Py.space "flag_a flag_b flag_c" = ["flag_a"; "flag_b"; "flag_c"].
Proof. reflexivity. Qed.

(** C9: when the [flag_meanings] attribute of the source variable is a
    string without a newline, the array [get_dataset] returns carries the
    list of its tokens instead: the pieces between the spaces, in order,
    which joined by spaces give the string back and contain no space
    themselves. A string with a newline, a value that is not a string and
    a missing attribute are passed on as they are. *)
Theorem get_dataset_flag_meanings (self : Handler) (info : dict) (out : Xr.DataArray) :
  get_dataset self info = Ok out →
  ∃ key src,
    info !! "file_key" = Some key ∧
    nc_getitem self key = Ok src ∧
    (∀ s, Xr.attrs src !! "flag_meanings" = Some (PyStr s) →
          Py.contains Py.newline s = false →
          ∃ toks, Xr.attrs out !! "flag_meanings" = Some (PyList (PyStr <$> toks)) ∧
                  toks = Py.split Py.space s ∧
                  Py.join Py.space toks = s ∧
                  Forall (fun tok => Py.contains Py.space tok = false) toks) ∧
    (∀ s, Xr.attrs src !! "flag_meanings" = Some (PyStr s) →
          Py.contains Py.newline s = true →
          Xr.attrs out !! "flag_meanings" = Some (PyStr s)) ∧
    ((∀ s, Xr.attrs src !! "flag_meanings" ≠ Some (PyStr s)) →
     Xr.attrs out !! "flag_meanings" = Xr.attrs src !! "flag_meanings").
Proof.
  intros Hout.
  apply get_dataset_inv in Hout
    as (key & src & masked & pname & rps & Hkey & Hsrc & Hmask & Hlabels & _ & ->).
  destruct Hlabels as (_ & Hattrs & _ & _).
  exists key, src. split_and!; try done.
  - intros s Hfm Hline. exists (Py.split Py.space s).
    rewrite finished_flag_meanings, Hattrs, Hfm, Hline.
    split_and!; [done | done | apply join_split | apply split_tokens].
  - intros s Hfm Hline.
    by rewrite finished_flag_meanings, Hattrs, Hfm, Hline.
  - intros Hother. rewrite finished_flag_meanings, Hattrs.
    destruct (Xr.attrs src !! "flag_meanings") as [[| | | |s|]|] eqn:Hfm; try done.
    by destruct (Hother s).
Qed.

Lemma get_dataset_flag_meanings_witness :
  ∃ out,
    get_dataset Sample.cloud_mask_handler Sample.cloud_mask_info = Ok out ∧
    Xr.attrs out !! "flag_meanings"
    = Some (PyList [PyStr "clear"; PyStr "probably_clear";
                    PyStr "probably_cloudy"; PyStr "cloudy"]).
Proof.
  destruct (get_dataset Sample.cloud_mask_handler Sample.cloud_mask_info)
    as [out|e] eqn:Hout; [|vm_compute in Hout; discriminate].
  exists out. split; [reflexivity|].
  destruct (get_dataset_flag_meanings _ _ out Hout)
    as (key & src & Hkey & Hsrc & Hsplit & _).
  vm_compute in Hkey. injection Hkey as <-.
  vm_compute in Hsrc. injection Hsrc as <-.
  destruct (Hsplit "clear probably_clear probably_cloudy cloudy")
    as (toks & Hfm & -> & _); [reflexivity | reflexivity |].
  exact Hfm.
Defined.

(** ** Attributes passed on *)

(** C10: every attribute of the source variable other than [units],
    [standard_name], [flag_meanings], [platform_name], [sensor] and
    [rows_per_scan] is found with the same value on the array
    [get_dataset] returns, and no other attribute appears;
    [standard_name] is the one of the descriptor when the descriptor has
    one and the one of the source, or missing as in the source, when it
    has none. *)
Theorem get_dataset_other_attrs (self : Handler) (info : dict) (out : Xr.DataArray) :
  get_dataset self info = Ok out →
  ∃ key src,
    info !! "file_key" = Some key ∧
    nc_getitem self key = Ok src ∧
    (∀ name, name ∉ written_attrs → Xr.attrs out !! name = Xr.attrs src !! name) ∧
    (info !! "standard_name" = None →
     Xr.attrs out !! "standard_name" = Xr.attrs src !! "standard_name") ∧
    (∀ v, info !! "standard_name" = Some v →
          Xr.attrs out !! "standard_name" = Some v).
Proof.
  intros Hout.
  apply get_dataset_inv in Hout
    as (key & src & masked & pname & rps & Hkey & Hsrc & Hmask & Hlabels & _ & ->).
  destruct Hlabels as (_ & Hattrs & _ & _).
  exists key, src. split_and!; try done.
  - intros name Hname. by rewrite finished_other, Hattrs.
  - intros Hnone. by rewrite finished_standard_name, Hnone, Hattrs.
  - intros v Hsome. by rewrite finished_standard_name, Hsome.
Qed.

Lemma get_dataset_other_attrs_witness :
  ∃ out,
    get_dataset Sample.cloud_mask_handler Sample.cloud_mask_info = Ok out ∧
    Xr.attrs out !! "long_name" = Some (PyStr "cloud mask") ∧
    Xr.attrs out !! "standard_name" = None.
Proof.
  destruct (get_dataset Sample.cloud_mask_handler Sample.cloud_mask_info)
    as [out|e] eqn:Hout; [|vm_compute in Hout; discriminate].
  exists out. split; [reflexivity|].
  destruct (get_dataset_other_attrs _ _ out Hout)
    as (key & src & Hkey & Hsrc & Hother & Hstd & _).
  vm_compute in Hkey. injection Hkey as <-.
  vm_compute in Hsrc. injection Hsrc as <-.
  split.
  - rewrite Hother; [reflexivity|].
    unfold written_attrs. rewrite !not_elem_of_cons. split_and!; try done.
    apply not_elem_of_nil.
  - rewrite Hstd; reflexivity.
Defined.

(** ** Repeating along an axis *)

Section Repeat.

Context {A : Type}.
Implicit Types (l row : list A) (bs : list (list A)).

Lemma twice_cons (x : A) l : twice (x :: l) = x :: x :: twice l.
Proof. reflexivity. Qed.

Lemma length_twice l : length (twice l) = (2 * length l)%nat.
Proof. induction l as [|x l IH]; [reflexivity|]. rewrite twice_cons. simpl. lia. Qed.

Lemma twice_lookup l (k : nat) : twice l !! k = l !! (k / 2)%nat.
Proof.
  revert k. induction l as [|x l IH]; intros k; [by rewrite !lookup_nil|].
  rewrite twice_cons.
  destruct k as [|[|k]]; [reflexivity | reflexivity |].
  replace (S (S k)) with (k + 1 * 2)%nat by lia.
  rewrite Nat.div_add by lia. replace (k / 2 + 1)%nat with (S (k / 2)) by lia.
  replace (k + 1 * 2)%nat with (S (S k)) by lia. simpl. apply IH.
Qed.

Lemma length_chunks (r n : nat) l : length (Np.chunks r n l) = r.
Proof. revert l. induction r as [|r IH]; intros l; simpl; [done | by rewrite IH]. Qed.

Lemma chunks_Forall (r n : nat) l :
  length l = (r * n)%nat → Forall (fun b => length b = n) (Np.chunks r n l).
Proof.
  revert l. induction r as [|r IH]; intros l Hlen; simpl; constructor.
  - rewrite length_take. lia.
  - apply IH. rewrite length_drop. lia.
Qed.

Lemma concat_chunks (r n : nat) l :
  length l = (r * n)%nat → List.concat (Np.chunks r n l) = l.
Proof.
  revert l. induction r as [|r IH]; intros l Hlen; simpl.
  - by destruct l.
  - rewrite IH by (rewrite length_drop; lia). apply take_drop.
Qed.

Lemma chunks_concat (n : nat) bs :
  Forall (fun b => length b = n) bs →
  Np.chunks (length bs) n (List.concat bs) = bs.
Proof.
  induction 1 as [|b bs Hb Hbs IH]; simpl; [reflexivity|].
  rewrite take_app_length' by done. rewrite drop_app_length' by done.
  by rewrite IH.
Qed.

Lemma chunks_lookup (r n : nat) l (i j : nat) row :
  Np.chunks r n l !! i = Some row → (j < n)%nat → row !! j = l !! (i * n + j)%nat.
Proof.
  revert l i. induction r as [|r IH]; intros l i Hrow Hj; simpl in Hrow; [done|].
  destruct i as [|i]; simpl in *.
  - injection Hrow as <-. by apply lookup_take_lt.
  - rewrite (IH _ _ Hrow Hj), lookup_drop. f_equal. lia.
Qed.

Lemma length_concat_uniform (n : nat) bs :
  Forall (fun b => length b = n) bs → length (List.concat bs) = (length bs * n)%nat.
Proof.
  induction 1 as [|b bs Hb Hbs IH]; simpl; [reflexivity|].
  rewrite length_app. lia.
Qed.

Lemma concat_app_self bs :
  List.concat (List.map (fun b => (b ++ b)%list) bs) = List.concat (twice bs).
Proof.
  induction bs as [|b bs IH]; [reflexivity|].
  change (twice (b :: bs)) with (b :: b :: twice bs).
  simpl. rewrite IH. by rewrite <- app_assoc.
Qed.

Lemma repeat2_flat_vector (c : nat) row :
  length row = c → Np.repeat2_flat [c] 0 row = twice row.
Proof.
  intros <-. simpl. induction row as [|x row IH]; [reflexivity|].
  simpl. rewrite twice_cons. f_equal. f_equal. rewrite drop_0. apply IH.
Qed.

Lemma repeat2_flat_rows (r c : nat) l :
  Np.repeat2_flat [r; c] 0 l = List.concat (twice (Np.chunks r c l)).
Proof.
  simpl. rewrite Nat.mul_1_r. apply concat_app_self.
Qed.

Lemma repeat2_flat_columns (r c : nat) l :
  length l = (r * c)%nat →
  Np.repeat2_flat [r; c] 1 l = List.concat (List.map twice (Np.chunks r c l)).
Proof.
  intros Hlen.
  change (Np.repeat2_flat [r; c] 1 l)
    with (List.concat (List.map (Np.repeat2_flat [c] 0) (Np.chunks r (Np.size [c]) l))).
  simpl. rewrite Nat.mul_1_r. f_equal.
  apply chunks_Forall in Hlen.
  induction Hlen as [|b bs Hb Hbs IH]; [reflexivity|].
  rewrite !List.map_cons. rewrite IH. f_equal.
  by rewrite <- (repeat2_flat_vector c b Hb).
Qed.

End Repeat.

Lemma bind_Ok_l {A B} (a : A) (f : A → result B) : (Ok a ≫= f) = f a.
Proof. reflexivity. Qed.

Lemma repeat2_Ok {A} (axis : nat) (a : Np.ndarray A) :
  (axis < length (Np.shape a))%nat →
  Np.repeat2 axis a
  = Ok (Np.mk_ndarray (alter (Nat.mul 2) axis (Np.shape a))
          (Np.repeat2_flat (Np.shape a) axis (Np.flat a))).
Proof.
  intros Haxis. unfold Np.repeat2.
  by rewrite (proj2 (Nat.ltb_lt _ _) Haxis).
Qed.

Lemma div2_lt (i n : nat) : (i / 2 <? n)%nat = (i <? 2 * n)%nat.
Proof.
  destruct (Nat.ltb_spec i (2 * n)) as [Hlt|Hge].
  - apply Nat.ltb_lt. apply Nat.Div0.div_lt_upper_bound. lia.
  - apply Nat.ltb_ge. apply Nat.div_le_lower_bound; [done | exact Hge].
Qed.

(** Repeating a grid along its columns and then along its rows: the
    element at [(i, j)] of the fine grid is the element at
    [(i / 2, j / 2)] of the coarse one. *)
Lemma upsample_at2 {A} (a : Np.ndarray A) (r c : nat) :
  Np.shape a = [r; c] → length (Np.flat a) = (r * c)%nat →
  ∃ u, (w ← Np.repeat2 1 a; Np.repeat2 0 w) = Ok u ∧
       Np.shape u = [(2 * r)%nat; (2 * c)%nat] ∧
       length (Np.flat u) = (2 * r * (2 * c))%nat ∧
       ∀ i j, Np.at2 u i j = Np.at2 a (i / 2) (j / 2).
Proof.
  intros Hshape Hlen.
  rewrite repeat2_Ok by (rewrite Hshape; simpl; lia).
  rewrite bind_Ok_l, repeat2_Ok by (cbn [Np.shape]; rewrite Hshape; simpl; lia).
  cbn [Np.shape Np.flat]. rewrite Hshape.
  change (alter (Nat.mul 2) 1%nat [r; c]) with [r; (2 * c)%nat].
  change (alter (Nat.mul 2) 0%nat [r; (2 * c)%nat]) with [(2 * r)%nat; (2 * c)%nat].
  eexists. split; [reflexivity|]. cbn [Np.shape Np.flat].
  set (rows := Np.chunks r c (Np.flat a)).
  assert (Hrows : Forall (fun b => length b = c) rows) by by apply chunks_Forall.
  assert (Hwide : Forall (fun b => length b = (2 * c)%nat) (List.map twice rows)).
  { apply Forall_fmap. eapply Forall_impl; [exact Hrows|].
    intros b Hb. cbv beta in Hb. simpl. rewrite length_twice. lia. }
  assert (Hfine : Forall (fun b => length b = (2 * c)%nat) (twice (List.map twice rows))).
  { apply Forall_forall. intros b Hb.
    apply list_elem_of_lookup in Hb as [k Hk]. rewrite twice_lookup in Hk.
    eapply Forall_lookup_1 in Hwide; [exact Hwide | exact Hk]. }
  assert (Hflat : Np.repeat2_flat [r; (2 * c)%nat] 0 (Np.repeat2_flat [r; c] 1 (Np.flat a))
                  = List.concat (twice (List.map twice rows))).
  { rewrite repeat2_flat_rows, repeat2_flat_columns by done. fold rows.
    replace r with (length (List.map twice rows)) at 1
      by (rewrite length_map; apply length_chunks).
    by rewrite chunks_concat. }
  rewrite Hflat.
  assert (Hcount : length (twice (List.map twice rows)) = (2 * r)%nat).
  { rewrite length_twice, length_map. unfold rows. by rewrite length_chunks. }
  split; [reflexivity|]. split.
  { rewrite (length_concat_uniform (2 * c)) by done. by rewrite Hcount. }
  intros i j. unfold Np.at2. cbn [Np.shape Np.flat]. rewrite Hshape.
  rewrite !div2_lt.
  destruct (Nat.ltb_spec i (2 * r)) as [Hi|Hi]; [|reflexivity].
  destruct (Nat.ltb_spec j (2 * c)) as [Hj|Hj]; [|reflexivity]. cbn [andb].
  assert (Hi2 : (i / 2 < r)%nat) by (apply Nat.Div0.div_lt_upper_bound; lia).
  assert (Hj2 : (j / 2 < c)%nat) by (apply Nat.Div0.div_lt_upper_bound; lia).
  destruct (lookup_lt_is_Some_2 rows (i / 2)) as [row Hrow].
  { unfold rows. by rewrite length_chunks. }
  assert (Hfine_row : Np.chunks (2 * r) (2 * c) (List.concat (twice (List.map twice rows))) !! i
                      = Some (twice row)).
  { rewrite <- Hcount, chunks_concat by done.
    by rewrite twice_lookup, list_lookup_fmap, Hrow. }
  rewrite <- (chunks_lookup _ _ _ _ _ _ Hfine_row Hj).
  rewrite twice_lookup.
  by apply (chunks_lookup r c (Np.flat a)).
Qed.

(** ** The quality mask of the vegetation indexes *)

Lemma land_mask_positive (q m : Z) : (0 <= m)%Z → (Z.land q m >? 0)%Z = true ↔ Z.land q m ≠ 0%Z.
Proof.
  intros Hm. assert (0 <= Z.land q m)%Z by (apply Z.land_nonneg; lia).
  rewrite Z.gtb_ltb, Z.ltb_lt. lia.
Qed.

(** A coarse pixel is classified bad exactly when one of the eight
    conditions holds. *)
Lemma bad_pixel_unacceptable (qf1 qf2 qf7 : Z) :
  bad_pixel qf1 qf2 qf7 = true ↔ unacceptable qf1 qf2 qf7.
Proof.
  unfold bad_pixel, unacceptable.
  unfold VIIRSSurfaceReflectanceWithVIHandler.has_sun_glint,
    VIIRSSurfaceReflectanceWithVIHandler.is_cloudy,
    VIIRSSurfaceReflectanceWithVIHandler.cloud_quality,
    VIIRSSurfaceReflectanceWithVIHandler.has_snow_or_ice,
    VIIRSSurfaceReflectanceWithVIHandler.has_cloud_shadow,
    VIIRSSurfaceReflectanceWithVIHandler.has_water,
    VIIRSSurfaceReflectanceWithVIHandler.has_aerosols,
    VIIRSSurfaceReflectanceWithVIHandler.adjacent_to_cloud.
  cbv zeta. rewrite !orb_true_iff.
  rewrite !land_mask_positive by lia.
  rewrite Z.ltb_lt, Z.leb_le, Z.eqb_eq, Z.gtb_ltb, Z.ltb_lt.
  lia.
Qed.

Lemma sun_glint_unacceptable (qf2 qf7 : Z) : unacceptable 192 qf2 qf7.
Proof. left. discriminate. Qed.

Lemma zip_with_lookup {A B C} (f : A → B → C) (xs : list A) (ys : list B) (k : nat) :
  Np.zip_with f xs ys !! k = (x ← xs !! k; y ← ys !! k; Some (f x y)).
Proof.
  revert ys k. induction xs as [|x xs IH]; intros [|y ys] [|k]; simpl;
    first [done | by destruct (xs !! k) | apply IH].
Qed.

Lemma length_zip_with {A B C} (f : A → B → C) (xs : list A) (ys : list B) :
  length (Np.zip_with f xs ys) = min (length xs) (length ys).
Proof.
  revert ys. induction xs as [|x xs IH]; intros [|y ys]; simpl; try done.
  by rewrite IH.
Qed.

Lemma bitand_Ok (a : Xr.DataArray) (m : Z) (x : Xr.Labelled Z) :
  Xr.bitand a m = Ok x →
  ∃ arr, Xr.data a = Xr.Int64 arr ∧
         x = Xr.mk_Labelled (Xr.dims a) (Np.map (fun v => Z.land v m) arr).
Proof.
  unfold Xr.bitand. destruct (Xr.data a) as [arr|arr]; [done|].
  intros Hx. injection Hx as <-. by exists arr.
Qed.

Lemma binop_Ok {A B C} (f : A → B → C) (x : Xr.Labelled A) (y : Xr.Labelled B)
    (z : Xr.Labelled C) :
  Xr.binop f x y = Ok z →
  Xr.ldims x = Xr.ldims y ∧ Np.shape (Xr.larr x) = Np.shape (Xr.larr y) ∧
  z = Xr.mk_Labelled (Xr.ldims x)
        (Np.mk_ndarray (Np.shape (Xr.larr x))
           (Np.zip_with f (Np.flat (Xr.larr x)) (Np.flat (Xr.larr y)))).
Proof.
  unfold Xr.binop. intros Hz. invert_bind Hz. destruct a.
  apply align_Ok in Ha as [? ?]. by injection Hz as <-.
Qed.

Lemma good_mask_inv (self : Handler) (good : Xr.Labelled bool) :
  VIIRSSurfaceReflectanceWithVIHandler._get_veg_index_good_mask self = Ok good →
  ∃ qf1 qf2 qf7 a1 a2 a7 bad fine,
    Xr.getitem (nc self) "QF1 Surface Reflectance" = Ok qf1 ∧ Xr.data qf1 = Xr.Int64 a1 ∧
    Xr.getitem (nc self) "QF2 Surface Reflectance" = Ok qf2 ∧ Xr.data qf2 = Xr.Int64 a2 ∧
    Xr.getitem (nc self) "QF7 Surface Reflectance" = Ok qf7 ∧ Xr.data qf7 = Xr.Int64 a7 ∧
    Np.shape bad = Np.shape a1 ∧ Np.shape a2 = Np.shape a1 ∧ Np.shape a7 = Np.shape a1 ∧
    (∀ k, Np.flat bad !! k
          = (q1 ← Np.flat a1 !! k; q2 ← Np.flat a2 !! k; q7 ← Np.flat a7 !! k;
             Some (bad_pixel q1 q2 q7))) ∧
    (w ← Np.repeat2 1 bad; Np.repeat2 0 w) = Ok fine ∧
    good = Xr.mk_Labelled (Xr.dims qf1) (Np.map negb fine).
Proof.
  unfold VIIRSSurfaceReflectanceWithVIHandler._get_veg_index_good_mask. intros H.
  invert_bind H. rename a into qf1, Ha into Hqf1.
  invert_bind H. apply bitand_Ok in Ha as (a1 & Ha1 & ->).
  invert_bind H. apply bitand_Ok in Ha as (a1' & Ha1' & ->).
  invert_bind H. apply bitand_Ok in Ha as (a1'' & Ha1'' & ->).
  rewrite Ha1 in Ha1', Ha1''. injection Ha1' as <-. injection Ha1'' as <-.
  invert_bind H. rename a into qf2, Ha into Hqf2.
  invert_bind H. apply bitand_Ok in Ha as (a2 & Ha2 & ->).
  invert_bind H. apply bitand_Ok in Ha as (a2' & Ha2' & ->).
  invert_bind H. apply bitand_Ok in Ha as (a2'' & Ha2'' & ->).
  rewrite Ha2 in Ha2', Ha2''. injection Ha2' as <-. injection Ha2'' as <-.
  invert_bind H. apply binop_Ok in Ha as (_ & _ & ->).
  invert_bind H. rename a into qf7, Ha into Hqf7.
  invert_bind H. apply bitand_Ok in Ha as (a7 & Ha7 & ->).
  invert_bind H. apply bitand_Ok in Ha as (a7' & Ha7' & ->).
  rewrite Ha7 in Ha7'. injection Ha7' as <-.
  invert_bind H. apply binop_Ok in Ha as (_ & _ & ->).
  invert_bind H. apply binop_Ok in Ha as (_ & _ & ->).
  invert_bind H. apply binop_Ok in Ha as (_ & Hs2 & ->).
  invert_bind H. apply binop_Ok in Ha as (_ & _ & ->).
  invert_bind H. apply binop_Ok in Ha as (_ & _ & ->).
  invert_bind H. apply binop_Ok in Ha as (_ & Hs7 & ->).
  invert_bind H. apply binop_Ok in Ha as (_ & _ & ->).
  cbn [Xr.larr Xr.ldims Xr.test Np.map Np.shape Np.flat] in *.
  match type of H with
  | Np.repeat2 1 ?b ≫= _ = _ => set (bad := b) in *
  end.
  invert_bind H. rename a into wide, Ha into Hwide.
  invert_bind H. rename a into fine, Ha into Hfine.
  injection H as <-.
  exists qf1, qf2, qf7, a1, a2, a7, bad, fine.
  split_and!; try done.
  - intros k. unfold bad. cbn [Np.flat].
    rewrite !zip_with_lookup, !list_lookup_fmap.
    by destruct (Np.flat a1 !! k), (Np.flat a2 !! k), (Np.flat a7 !! k).
  - by rewrite Hwide.
Qed.

Lemma as_floats_Float64 (shp : list nat) (xs : list float) :
  Xr.as_floats (Xr.Float64 (Np.mk_ndarray shp xs)) = xs.
Proof.
  unfold Xr.as_floats. simpl. rewrite List.map_map. simpl. apply List.map_id.
Qed.

Lemma length_as_floats (v : Xr.values) : length (Xr.as_floats v) = length (Xr.cells v).
Proof. unfold Xr.as_floats. apply length_map. Qed.

Lemma where_Ok (a b : Xr.DataArray) (cond : Xr.Labelled bool) :
  Xr.where_ a cond = Ok b →
  Xr.shape a = Np.shape (Xr.larr cond) ∧
  b = Xr.set_data a (Xr.where_values (Xr.data a) (Np.flat (Xr.larr cond))).
Proof.
  unfold Xr.where_. intros H. invert_bind H. destruct a0.
  apply align_Ok in Ha0 as [_ ?]. by injection H as <-.
Qed.

Lemma masked_unless_length (keep : Np.number → bool) (a : Xr.DataArray) :
  length (Xr.as_floats (Xr.data (masked_unless keep a))) = length (Xr.cells (Xr.data a)).
Proof.
  unfold masked_unless. simpl. rewrite as_floats_Float64. apply length_map.
Qed.

Lemma base_mask_invalid_length (a b : Xr.DataArray) (ds_info : dict) :
  VIIRSJRRFileHandler._mask_invalid a ds_info = Ok b →
  length (Xr.as_floats (Xr.data b)) = length (Xr.cells (Xr.data a)).
Proof.
  unfold VIIRSJRRFileHandler._mask_invalid. intros H.
  invert_bind H. destruct a0.
  { injection H as <-. apply length_as_floats. }
  destruct (negb (Py.is_none (Py.get ds_info "_FillValue"))).
  { invert_bind H. unfold Xr.ne in H. rewrite where_compare in H.
    injection H as <-. apply masked_unless_length. }
  destruct (negb (Py.is_none _)).
  - do 4 invert_bind H. invert_bind H.
    unfold Xr.ge, Xr.le in *.
    match goal with
    | Hband : Xr.band _ _ = Ok _ |- _ => rewrite band_compare in Hband; injection Hband as <-
    end.
    rewrite where_compare in H. injection H as <-. apply masked_unless_length.
  - injection H as <-. apply length_as_floats.
Qed.

Lemma assoc_get_elem {V} (key : string) (d : list (string * V)) (v : V) :
  Xr.assoc_get key d = Some v → ∃ k, (k, v) ∈ d.
Proof.
  induction d as [|[k w] d IH]; simpl; [done|].
  destruct (String.eqb k key).
  - intros [= ->]. exists k. by left.
  - intros Hv. destruct (IH Hv) as [k' Hk']. exists k'. by right.
Qed.

Lemma getitem_well_formed (ds : Xr.Dataset) (name : string) (a : Xr.DataArray) :
  dataset_well_formed ds → Xr.getitem ds name = Ok a → well_formed a.
Proof.
  unfold dataset_well_formed, Xr.getitem. intros Hwf Ha.
  destruct (Xr.assoc_get name (Xr.ds_vars ds)) as [a'|] eqn:Hget; [|done].
  injection Ha as ->. apply assoc_get_elem in Hget as [k Hk].
  by apply (proj1 (Forall_forall _ _) Hwf (k, a)).
Qed.

Lemma length_from_lookup {A} (l : list A) (n : nat) :
  (∀ k, is_Some (l !! k) ↔ (k < n)%nat) → length l = n.
Proof.
  intros Hk. destruct (Nat.lt_trichotomy (length l) n) as [Hlt|[Heq|Hgt]]; [|done|].
  - apply Hk, lookup_lt_is_Some in Hlt. lia.
  - assert (is_Some (l !! n)) as Hn by (apply lookup_lt_is_Some; lia).
    apply Hk in Hn. lia.
Qed.

Lemma at2_Some {A} (a : Np.ndarray A) (i j : nat) (x : A) :
  Np.at2 a i j = Some x →
  ∃ r c, Np.shape a = [r; c] ∧ (i < r)%nat ∧ (j < c)%nat ∧
         Np.flat a !! (i * c + j)%nat = Some x.
Proof.
  unfold Np.at2. destruct (Np.shape a) as [|r [|c [|]]]; try done.
  destruct (Nat.ltb_spec i r); [|done]. destruct (Nat.ltb_spec j c); [|done].
  intros Hx. by exists r, c.
Qed.

Lemma at2_map {A B} (f : A → B) (a : Np.ndarray A) (i j : nat) :
  Np.at2 (Np.map f a) i j = f <$> Np.at2 a i j.
Proof.
  unfold Np.at2. simpl. destruct (Np.shape a) as [|r [|c [|]]]; try done.
  destruct (_ && _); [|done]. apply list_lookup_fmap.
Qed.

(** The good mask holds, at every fine pixel, the negation of the quality
    test of its coarse cell. *)
Lemma good_mask_at (self : Handler) (good : Xr.Labelled bool)
    (qf1 qf2 qf7 : Xr.DataArray) (i j : nat) (q1 q2 q7 : Z) :
  dataset_well_formed (nc self) →
  VIIRSSurfaceReflectanceWithVIHandler._get_veg_index_good_mask self = Ok good →
  Xr.getitem (nc self) "QF1 Surface Reflectance" = Ok qf1 →
  Xr.getitem (nc self) "QF2 Surface Reflectance" = Ok qf2 →
  Xr.getitem (nc self) "QF7 Surface Reflectance" = Ok qf7 →
  flag qf1 (i / 2) (j / 2) = Some q1 →
  flag qf2 (i / 2) (j / 2) = Some q2 →
  flag qf7 (i / 2) (j / 2) = Some q7 →
  Np.at2 (Xr.larr good) i j = Some (negb (bad_pixel q1 q2 q7)).
Proof.
  intros Hwf Hgood Hqf1 Hqf2 Hqf7 Hq1 Hq2 Hq7.
  apply good_mask_inv in Hgood
    as (qf1' & qf2' & qf7' & a1 & a2 & a7 & bad & fine & Hqf1' & Ha1 & Hqf2' & Ha2
        & Hqf7' & Ha7 & Hsbad & Hs2 & Hs7 & Hbad & Hfine & ->).
  rewrite Hqf1 in Hqf1'. injection Hqf1' as <-.
  rewrite Hqf2 in Hqf2'. injection Hqf2' as <-.
  rewrite Hqf7 in Hqf7'. injection Hqf7' as <-.
  pose proof (getitem_well_formed _ _ _ Hwf Hqf1) as Hwf1.
  pose proof (getitem_well_formed _ _ _ Hwf Hqf2) as Hwf2.
  pose proof (getitem_well_formed _ _ _ Hwf Hqf7) as Hwf7.
  unfold well_formed, Xr.shape, flag in *.
  rewrite Ha1 in Hwf1, Hq1. rewrite Ha2 in Hwf2, Hq2. rewrite Ha7 in Hwf7, Hq7.
  simpl in Hwf1, Hwf2, Hwf7. rewrite length_map in Hwf1, Hwf2, Hwf7.
  apply at2_Some in Hq1 as (r & c & Hshape & Hi & Hj & Hq1).
  apply at2_Some in Hq2 as (r2 & c2 & Hshape2 & _ & _ & Hq2).
  apply at2_Some in Hq7 as (r7 & c7 & Hshape7 & _ & _ & Hq7).
  rewrite Hs2, Hshape in Hshape2. injection Hshape2 as <- <-.
  rewrite Hs7, Hshape in Hshape7. injection Hshape7 as <- <-.
  rewrite Hs2, Hshape in Hwf2. rewrite Hs7, Hshape in Hwf7. rewrite Hshape in Hwf1.
  simpl in Hwf1, Hwf2, Hwf7. rewrite Nat.mul_1_r in Hwf1, Hwf2, Hwf7.
  rewrite Hshape in Hsbad.
  assert (Hlen : length (Np.flat bad) = (r * c)%nat).
  { apply length_from_lookup. intros k. rewrite Hbad.
    rewrite <- Hwf1 at 1.
    split.
    - intros [b Hb]. apply lookup_lt_is_Some.
      destruct (Np.flat a1 !! k); [by eexists | done].
    - intros Hk.
      destruct (lookup_lt_is_Some_2 (Np.flat a1) k) as [x1 ->]; [lia|].
      destruct (lookup_lt_is_Some_2 (Np.flat a2) k) as [x2 ->]; [lia|].
      destruct (lookup_lt_is_Some_2 (Np.flat a7) k) as [x7 ->]; [lia|].
      by eexists. }
  destruct (upsample_at2 bad r c Hsbad Hlen) as (u & Hu & _ & _ & Hat).
  rewrite Hfine in Hu. injection Hu as <-.
  cbn [Xr.larr]. rewrite at2_map, Hat. unfold Np.at2. rewrite Hsbad.
  rewrite (proj2 (Nat.ltb_lt _ _) Hi), (proj2 (Nat.ltb_lt _ _) Hj). cbn [andb].
  by rewrite Hbad, Hq1, Hq2, Hq7.
Qed.

Lemma surface_mask_invalid_inv (self : Handler) (a b : Xr.DataArray) (ds_info : dict)
    (key : string) :
  ds_info !! "file_key" = Some (PyStr key) → key = "NDVI" ∨ key = "EVI" →
  VIIRSSurfaceReflectanceWithVIHandler._mask_invalid self a ds_info = Ok b →
  ∃ base good,
    VIIRSJRRFileHandler._mask_invalid a ds_info = Ok base ∧
    VIIRSSurfaceReflectanceWithVIHandler._get_veg_index_good_mask self = Ok good ∧
    Xr.where_ base good = Ok b.
Proof.
  intros Hkey Hveg. unfold VIIRSSurfaceReflectanceWithVIHandler._mask_invalid.
  intros H. invert_bind H. rename a0 into base.
  rewrite (proj2 (getitem_Ok _ _ _) Hkey) in H. rewrite bind_Ok_l in H.
  replace (Py.in_strs (PyStr key) ["NDVI"; "EVI"]) with true in H
    by (by destruct Hveg as [-> | ->]).
  invert_bind H. by exists base, a0.
Qed.

(** C5: for the surface reflectance handler and a descriptor whose
    [file_key] is NDVI or EVI, take a fine pixel [(i, j)] and the three
    quality flags of its coarse cell [(i / 2, j / 2)]. The good mask is
    false there if and only if one of the eight conditions holds; and
    when one holds, the pixel of the returned array is masked, whatever
    the other bits are, in particular when QF1 is 0b11000000. *)
Theorem vegetation_index_quality_mask (self : Handler) (info : dict)
    (out : Xr.DataArray) (key : string) :
  cls self = VIIRSSurfaceReflectanceWithVIHandler_class →
  dataset_well_formed (nc self) →
  info !! "file_key" = Some (PyStr key) → key = "NDVI" ∨ key = "EVI" →
  get_dataset self info = Ok out →
  ∃ qf1 qf2 qf7 good,
    Xr.getitem (nc self) "QF1 Surface Reflectance" = Ok qf1 ∧
    Xr.getitem (nc self) "QF2 Surface Reflectance" = Ok qf2 ∧
    Xr.getitem (nc self) "QF7 Surface Reflectance" = Ok qf7 ∧
    VIIRSSurfaceReflectanceWithVIHandler._get_veg_index_good_mask self = Ok good ∧
    ∀ i j q1 q2 q7,
      flag qf1 (i / 2) (j / 2) = Some q1 →
      flag qf2 (i / 2) (j / 2) = Some q2 →
      flag qf7 (i / 2) (j / 2) = Some q7 →
      (Np.at2 (Xr.larr good) i j = Some false ↔ unacceptable q1 q2 q7) ∧
      (unacceptable q1 q2 q7 → pixel out i j = Some nan) ∧
      (q1 = 192%Z → pixel out i j = Some nan).
Proof.
  intros Hcls Hwf Hkey Hveg Hout.
  apply get_dataset_inv in Hout
    as (key' & src & masked & pname & rps & Hkey' & Hsrc & Hmask & Hlabels & _ & ->).
  rewrite Hkey in Hkey'. injection Hkey' as <-. simpl in Hsrc.
  unfold self_mask_invalid in Hmask. rewrite Hcls in Hmask.
  apply (surface_mask_invalid_inv _ _ _ _ key Hkey Hveg) in Hmask
    as (base & good & Hbase & Hgood & Hwhere).
  pose proof Hgood as Hinv. apply good_mask_inv in Hinv
    as (qf1 & qf2 & qf7 & _ & _ & _ & _ & _ & Hqf1 & _ & Hqf2 & _ & Hqf7 & _).
  exists qf1, qf2, qf7, good. split_and!; try done.
  intros i j q1 q2 q7 Hq1 Hq2 Hq7.
  pose proof (good_mask_at self good qf1 qf2 qf7 i j q1 q2 q7
                Hwf Hgood Hqf1 Hqf2 Hqf7 Hq1 Hq2 Hq7) as Hat.
  assert (Hmasked : unacceptable q1 q2 q7 → pixel (finished self info masked pname rps) i j = Some nan).
  { intros Hbad. apply bad_pixel_unacceptable in Hbad. rewrite Hbad in Hat.
    simpl in Hat. apply at2_Some in Hat as (R & C & Hshape & Hi & Hj & Hkeep).
    apply where_Ok in Hwhere as [Hsh ->].
    pose proof (base_mask_invalid_length _ _ _ Hbase) as Hlen.
    pose proof (base_mask_invalid_labels _ _ _ Hbase) as (_ & _ & _ & Hsh').
    pose proof (getitem_well_formed _ _ _ Hwf Hsrc) as Hwfsrc.
    unfold well_formed in Hwfsrc. rewrite Hwfsrc, <- Hsh', Hsh, Hshape in Hlen.
    simpl in Hlen. rewrite Nat.mul_1_r in Hlen.
    destruct (lookup_lt_is_Some_2 (Xr.as_floats (Xr.data base)) (i * C + j)) as [x Hx];
      [nia|].
    set (masked := Xr.set_data base (Xr.where_values (Xr.data base) (Np.flat (Xr.larr good)))).
    assert (Hmshape : Xr.shape masked = [R; C]) by (by rewrite <- Hshape, <- Hsh).
    assert (Hmpix : Xr.as_floats (Xr.data masked) !! (i * C + j)%nat = Some nan).
    { unfold masked, Xr.where_values. cbn [Xr.data Xr.set_data].
      by rewrite as_floats_Float64, zip_with_lookup, Hx, Hkeep. }
    unfold pixel, Xr.shape. rewrite finished_data.
    match goal with |- context [if ?test then _ else _] => destruct test end.
    - change (Xr.values_shape (Xr.data (Xr.imul masked 100))) with (Xr.shape masked).
      rewrite imul_floats, Hmshape. unfold Np.at2. cbn [Np.shape Np.flat].
      rewrite (proj2 (Nat.ltb_lt _ _) Hi), (proj2 (Nat.ltb_lt _ _) Hj). cbn [andb].
      by rewrite list_lookup_fmap, Hmpix.
    - change (Xr.values_shape (Xr.data masked)) with (Xr.shape masked).
      rewrite Hmshape. unfold Np.at2. cbn [Np.shape Np.flat].
      by rewrite (proj2 (Nat.ltb_lt _ _) Hi), (proj2 (Nat.ltb_lt _ _) Hj). }
  split_and!.
  - rewrite Hat, <- bad_pixel_unacceptable.
    destruct (bad_pixel q1 q2 q7); simpl; split; congruence.
  - exact Hmasked.
  - intros ->. apply Hmasked, sun_glint_unacceptable.
Qed.

Lemma vegetation_index_quality_mask_witness :
  ∃ out,
    get_dataset Sample.surf_refl_handler Sample.ndvi_info = Ok out ∧
    pixel out 1 1 = Some nan ∧ pixel out 1 2 = Some 87.5%float.
Proof.
  destruct (get_dataset Sample.surf_refl_handler Sample.ndvi_info) as [out|e] eqn:Hout;
    [|vm_compute in Hout; discriminate].
  exists out. split; [reflexivity|].
  assert (Hwf : dataset_well_formed (nc Sample.surf_refl_handler))
    by (repeat constructor).
  assert (Hkey : Sample.ndvi_info !! "file_key" = Some (PyStr "NDVI")) by reflexivity.
  destruct (vegetation_index_quality_mask Sample.surf_refl_handler Sample.ndvi_info
              out "NDVI" eq_refl Hwf Hkey (or_introl eq_refl) Hout)
    as (qf1 & qf2 & qf7 & good & Hqf1 & Hqf2 & Hqf7 & _ & Hpixels).
  vm_compute in Hqf1. injection Hqf1 as <-.
  vm_compute in Hqf2. injection Hqf2 as <-.
  vm_compute in Hqf7. injection Hqf7 as <-.
  split.
  - destruct (Hpixels 1%nat 1%nat 192%Z 3%Z 0%Z eq_refl eq_refl eq_refl)
      as (_ & _ & Hglint).
    exact (Hglint eq_refl).
  - vm_compute in Hout. injection Hout as <-. reflexivity.
Defined.

(** * Further properties *)

(** ** Chunk sizes *)

(** X1: the number of rows per chunk is at least one whatever the limit
    is, the 375 m grid gets twice as many rows as the 750 m grid, and
    when the limit holds at least one row of 3200 four-byte samples the
    750 m chunk is the largest number of such rows within the limit. *)
Theorem row_chunks_spec (limit : Z) :
  (1 <= VIIRSJRRFileHandler.row_chunks_m limit)%Z ∧
  VIIRSJRRFileHandler.row_chunks_i limit = (2 * VIIRSJRRFileHandler.row_chunks_m limit)%Z ∧
  ((limit < 2 * (4 * 3200))%Z → VIIRSJRRFileHandler.row_chunks_m limit = 1%Z) ∧
  ((4 * 3200 <= limit)%Z →
   (VIIRSJRRFileHandler.row_chunks_m limit * (4 * 3200) <= limit
    < (VIIRSJRRFileHandler.row_chunks_m limit + 1) * (4 * 3200))%Z).
Proof.
  unfold VIIRSJRRFileHandler.row_chunks_i, VIIRSJRRFileHandler.row_chunks_m.
  rewrite Z.div_div by lia.
  split_and!; [lia | lia | |]; intros Hlimit; Z.div_mod_to_equations; lia.
Qed.

Lemma row_chunks_spec_witness :
  VIIRSJRRFileHandler.row_chunks_m 100 = 1%Z ∧
  (VIIRSJRRFileHandler.row_chunks_m 134217728 * (4 * 3200) <= 134217728
   < (VIIRSJRRFileHandler.row_chunks_m 134217728 + 1) * (4 * 3200))%Z.
Proof.
  split.
  - apply (row_chunks_spec 100). lia.
  - apply (row_chunks_spec 134217728). lia.
Defined.

(** ** The quality tests, bit by bit *)

Lemma land_low_byte (q m : Z) :
  (0 <= m < 256)%Z → Z.land q m = Z.land (q mod 256) m.
Proof.
  intros Hm. change 256%Z with (2 ^ 8)%Z.
  rewrite <- (Z.land_ones q 8) by lia.
  rewrite <- Z.land_assoc. f_equal.
  rewrite Z.land_comm, Z.land_ones by lia.
  symmetry. apply Z.mod_small. exact Hm.
Qed.

Lemma byte_cases (P : Z → bool) :
  forallb P (Z.of_nat <$> seq 0 256) = true →
  ∀ r, (0 <= r < 256)%Z → P r = true.
Proof.
  intros Hall r Hr. rewrite forallb_forall in Hall. apply Hall.
  apply list_elem_of_In, list_elem_of_fmap. exists (Z.to_nat r).
  split; [lia|]. apply elem_of_seq. lia.
Qed.

(** Every test gives the same answer on a flag and on its low byte. *)
Ltac low_byte q :=
  rewrite ?(land_low_byte q 192), ?(land_low_byte q 12), ?(land_low_byte q 3),
    ?(land_low_byte q 32), ?(land_low_byte q 8), ?(land_low_byte q 7),
    ?(land_low_byte q 2), ?(land_low_byte q 204), ?(land_low_byte q 40) by lia.

(** X2: the classification of a pixel reads the low eight bits of the
    three flags only: adding a multiple of 256 to a flag, as a signed
    reading of the byte does, changes nothing. *)
Theorem bad_pixel_low_byte (qf1 qf2 qf7 k1 k2 k7 : Z) :
  bad_pixel (qf1 + 256 * k1) (qf2 + 256 * k2) (qf7 + 256 * k7) = bad_pixel qf1 qf2 qf7.
Proof.
  unfold bad_pixel,
    VIIRSSurfaceReflectanceWithVIHandler.has_sun_glint,
    VIIRSSurfaceReflectanceWithVIHandler.is_cloudy,
    VIIRSSurfaceReflectanceWithVIHandler.cloud_quality,
    VIIRSSurfaceReflectanceWithVIHandler.has_snow_or_ice,
    VIIRSSurfaceReflectanceWithVIHandler.has_cloud_shadow,
    VIIRSSurfaceReflectanceWithVIHandler.has_water,
    VIIRSSurfaceReflectanceWithVIHandler.has_aerosols,
    VIIRSSurfaceReflectanceWithVIHandler.adjacent_to_cloud.
  cbv zeta.
  low_byte (qf1 + 256 * k1)%Z. low_byte (qf2 + 256 * k2)%Z. low_byte (qf7 + 256 * k7)%Z.
  low_byte qf1. low_byte qf2. low_byte qf7.
  replace ((qf1 + 256 * k1) mod 256)%Z with (qf1 mod 256)%Z
    by (rewrite (Z.mul_comm 256), Z.mod_add by lia; reflexivity).
  replace ((qf2 + 256 * k2) mod 256)%Z with (qf2 mod 256)%Z
    by (rewrite (Z.mul_comm 256), Z.mod_add by lia; reflexivity).
  replace ((qf7 + 256 * k7) mod 256)%Z with (qf7 mod 256)%Z
    by (rewrite (Z.mul_comm 256), Z.mod_add by lia; reflexivity).
  reflexivity.
Qed.

Lemma testbit_low_byte (q : Z) : Z.testbit q 1 = Z.testbit (q mod 256) 1.
Proof.
  change 256%Z with (2 ^ 8)%Z. symmetry. apply Z.mod_pow2_bits_low. lia.
Qed.

Lemma first_flag_bits (q : Z) :
  VIIRSSurfaceReflectanceWithVIHandler.has_sun_glint q
  || VIIRSSurfaceReflectanceWithVIHandler.is_cloudy q
  || VIIRSSurfaceReflectanceWithVIHandler.cloud_quality q
  = negb ((Z.land q 204 =? 0)%Z && Z.testbit q 1).
Proof.
  unfold VIIRSSurfaceReflectanceWithVIHandler.has_sun_glint,
    VIIRSSurfaceReflectanceWithVIHandler.is_cloudy,
    VIIRSSurfaceReflectanceWithVIHandler.cloud_quality.
  low_byte q. rewrite (testbit_low_byte q).
  assert (0 <= q mod 256 < 256)%Z as Hr by (apply Z.mod_pos_bound; lia).
  generalize dependent (q mod 256)%Z. intros r Hr.
  apply (proj1 (Bool.eqb_true_iff _ _)).
  revert r Hr. apply byte_cases. vm_compute. reflexivity.
Qed.

Lemma second_flag_bits (q : Z) :
  VIIRSSurfaceReflectanceWithVIHandler.has_snow_or_ice q
  || VIIRSSurfaceReflectanceWithVIHandler.has_cloud_shadow q
  || VIIRSSurfaceReflectanceWithVIHandler.has_water q
  = negb ((Z.land q 40 =? 0)%Z
          && bool_decide (Z.land q 7 ∈ [3; 4; 6; 7]%Z)).
Proof.
  unfold VIIRSSurfaceReflectanceWithVIHandler.has_snow_or_ice,
    VIIRSSurfaceReflectanceWithVIHandler.has_cloud_shadow,
    VIIRSSurfaceReflectanceWithVIHandler.has_water.
  cbv zeta. low_byte q.
  assert (0 <= q mod 256 < 256)%Z as Hr by (apply Z.mod_pos_bound; lia).
  generalize dependent (q mod 256)%Z. intros r Hr.
  apply (proj1 (Bool.eqb_true_iff _ _)).
  revert r Hr. apply byte_cases. vm_compute. reflexivity.
Qed.

Lemma seventh_flag_bits (q : Z) :
  VIIRSSurfaceReflectanceWithVIHandler.has_aerosols q
  || VIIRSSurfaceReflectanceWithVIHandler.adjacent_to_cloud q
  = negb (negb (Z.land q 12 =? 12)%Z && negb (Z.testbit q 1)).
Proof.
  unfold VIIRSSurfaceReflectanceWithVIHandler.has_aerosols,
    VIIRSSurfaceReflectanceWithVIHandler.adjacent_to_cloud.
  low_byte q. rewrite (testbit_low_byte q).
  assert (0 <= q mod 256 < 256)%Z as Hr by (apply Z.mod_pos_bound; lia).
  generalize dependent (q mod 256)%Z. intros r Hr.
  apply (proj1 (Bool.eqb_true_iff _ _)).
  revert r Hr. apply byte_cases. vm_compute. reflexivity.
Qed.

(** X3: a pixel passes the quality test exactly when, in QF1, bits 2, 3,
    6 and 7 are clear and bit 1 is set; in QF2, bits 3 and 5 are clear and
    the low three bits read 3, 4, 6 or 7; in QF7, bits 2 and 3 are not
    both set and bit 1 is clear. *)
Theorem good_pixel_bits (qf1 qf2 qf7 : Z) :
  bad_pixel qf1 qf2 qf7 = false ↔
  (Z.land qf1 204 = 0%Z ∧ Z.testbit qf1 1 = true) ∧
  (Z.land qf2 40 = 0%Z ∧ Z.land qf2 7 ∈ [3; 4; 6; 7]%Z) ∧
  (Z.land qf7 12 ≠ 12%Z ∧ Z.testbit qf7 1 = false).
Proof.
  unfold bad_pixel.
  rewrite <- !orb_assoc.
  rewrite (orb_assoc (VIIRSSurfaceReflectanceWithVIHandler.has_sun_glint qf1)).
  rewrite (orb_assoc (_ || _) (VIIRSSurfaceReflectanceWithVIHandler.cloud_quality qf1)).
  rewrite first_flag_bits.
  rewrite (orb_assoc (VIIRSSurfaceReflectanceWithVIHandler.has_snow_or_ice qf2)).
  rewrite (orb_assoc (_ || _) (VIIRSSurfaceReflectanceWithVIHandler.has_water qf2)).
  rewrite second_flag_bits, seventh_flag_bits.
  rewrite !orb_false_iff, !negb_false_iff, !andb_true_iff, !negb_true_iff.
  rewrite !Z.eqb_eq, Z.eqb_neq, bool_decide_eq_true. tauto.
Qed.

(** ** Platform names, continued *)

(** X4: the platform name does not see the case of the code: two
    handlers whose codes agree in upper case have the same platform name
    or fail alike; and a name that is returned is one of Suomi-NPP,
    NOAA-20 and NOAA-21. *)
Theorem platform_name_case_insensitive (h1 h2 : Handler) (code1 code2 : string) :
  filename_info h1 !! "platform_shortname" = Some (PyStr code1) →
  filename_info h2 !! "platform_shortname" = Some (PyStr code2) →
  Py.upper code1 = Py.upper code2 →
  VIIRSJRRFileHandler.platform_name h1 = VIIRSJRRFileHandler.platform_name h2 ∧
  ∀ name, VIIRSJRRFileHandler.platform_name h1 = Ok name →
          name ∈ ["Suomi-NPP"; "NOAA-20"; "NOAA-21"].
Proof.
  intros Hcode1 Hcode2 Hupper.
  rewrite (platform_name_eq h1 code1 Hcode1), (platform_name_eq h2 code2 Hcode2), Hupper.
  split; [reflexivity|]. intros name. rewrite platform_dict_lookup.
  repeat (case_decide; [intros [= <-]; rewrite !elem_of_cons; by eauto |]).
  discriminate.
Qed.

Lemma platform_name_case_insensitive_witness :
  let lower := Sample.cloud_mask_handler in
  let upper :=
    {| cls := cls lower; filename := filename lower;
       filename_info := <["platform_shortname" := PyStr "J01"]> (filename_info lower);
       filetype_info := filetype_info lower; nc := nc lower;
       algorithm_version := PyStr "J01"; sensor_name := sensor_name lower |} in
  VIIRSJRRFileHandler.platform_name lower = VIIRSJRRFileHandler.platform_name upper.
Proof.
  intros lower upper.
  apply (platform_name_case_insensitive lower upper "j01" "J01"); reflexivity.
Defined.

(** ** Flag meanings, continued *)

Lemma length_split (c : ascii) (s : string) :
  length (Py.split c s) = S (occurrences c s).
Proof.
  induction s as [|a s IH]; [reflexivity|]. simpl.
  destruct (Ascii.eqb a c); simpl; [by rewrite IH|].
  destruct (Py.split c s); simpl in *; lia.
Qed.

(** X5: a flag string without newline that holds [n] spaces is decoded
    into [n + 1] flags: every single space separates, two spaces in a row
    leave an empty flag between them. *)
Theorem decode_flag_meanings_count (data_arr : Xr.DataArray) (s : string) :
  Xr.attrs data_arr !! "flag_meanings" = Some (PyStr s) →
  Py.contains Py.newline s = false →
  ∃ flags,
    Xr.attrs (VIIRSJRRFileHandler._decode_flag_meanings data_arr) !! "flag_meanings"
    = Some (PyList (PyStr <$> flags)) ∧
    length flags = S (occurrences Py.space s).
Proof.
  intros Hfm Hline. exists (Py.split Py.space s).
  unfold VIIRSJRRFileHandler._decode_flag_meanings, Py.get.
  rewrite Hfm. simpl. rewrite Hline. simpl.
  split; [apply lookup_insert_eq | apply length_split].
Qed.

Lemma decode_flag_meanings_count_witness :
  let double_space :=
    Xr.set_attr Sample.cloud_mask_var "flag_meanings" (PyStr "clear  cloudy") in
  ∃ flags,
    Xr.attrs (VIIRSJRRFileHandler._decode_flag_meanings double_space) !! "flag_meanings"
    = Some (PyList (PyStr <$> flags)) ∧
    length flags = 3%nat.
Proof.
  intros double_space.
  destruct (decode_flag_meanings_count double_space "clear  cloudy")
    as (flags & Hflags & Hcount); [reflexivity | reflexivity |].
  exists flags. split; [exact Hflags | exact Hcount].
Defined.

(** X6: decoding the flag meanings a second time changes nothing, and
    decoding never touches the data, the dimensions, the encoding or any
    other attribute. *)
Theorem decode_flag_meanings_idempotent (data_arr : Xr.DataArray) :
  let decoded := VIIRSJRRFileHandler._decode_flag_meanings data_arr in
  VIIRSJRRFileHandler._decode_flag_meanings decoded = decoded ∧
  Xr.data decoded = Xr.data data_arr ∧ Xr.dims decoded = Xr.dims data_arr ∧
  Xr.encoding decoded = Xr.encoding data_arr ∧
  ∀ key, key ≠ "flag_meanings" → Xr.attrs decoded !! key = Xr.attrs data_arr !! key.
Proof.
  cbv zeta. split_and!.
  - assert (∀ b, (∀ s, Py.get (Xr.attrs b) "flag_meanings" ≠ PyStr s) →
                 VIIRSJRRFileHandler._decode_flag_meanings b = b) as Hother.
    { intros b Hb. unfold VIIRSJRRFileHandler._decode_flag_meanings.
      destruct (Py.get (Xr.attrs b) "flag_meanings") eqn:Hfm; try done.
      by destruct (Hb s). }
    destruct (Py.get (Xr.attrs data_arr) "flag_meanings") as [| | | |s|] eqn:Hfm;
      try (rewrite (Hother data_arr) by (intros s; rewrite Hfm; discriminate);
           apply Hother; intros s; rewrite Hfm; discriminate).
    destruct (negb (Py.contains Py.newline s)) eqn:Hline.
    + assert (VIIRSJRRFileHandler._decode_flag_meanings data_arr
              = Xr.set_attr data_arr "flag_meanings"
                  (PyList (List.map PyStr (Py.split Py.space s)))) as ->
        by (unfold VIIRSJRRFileHandler._decode_flag_meanings; by rewrite Hfm, Hline).
      apply Hother. intros s'. unfold Py.get. simpl.
      rewrite lookup_insert_eq. discriminate.
    + assert (VIIRSJRRFileHandler._decode_flag_meanings data_arr = data_arr) as Hsame
        by (unfold VIIRSJRRFileHandler._decode_flag_meanings; by rewrite Hfm, Hline).
      by rewrite !Hsame.
  - apply decode_flag_meanings_data.
  - unfold VIIRSJRRFileHandler._decode_flag_meanings.
    destruct (Py.get _ _); try reflexivity. by destruct (negb _).
  - unfold VIIRSJRRFileHandler._decode_flag_meanings.
    destruct (Py.get _ _); try reflexivity. by destruct (negb _).
  - intros key Hkey. by apply decode_flag_meanings_other.
Qed.

(** ** Availability, continued *)

Section AvailabilityFurther.

Variable file_type_matches : Handler → pyval → pyval.

Lemma available_loop_settled (self : Handler) (configured : list (pyval * dict)) :
  Forall (λ item, item.1 ≠ PyNone) configured →
  VIIRSJRRFileHandler.available_loop file_type_matches self configured = (configured, None).
Proof.
  induction 1 as [|[is_avail ds_info] rest Hitem Hrest IH]; [reflexivity|].
  rewrite available_loop_known by done. rewrite IH. reflexivity.
Qed.

(** X7: descriptors whose availability an earlier handler has settled
    pass through untouched: when no availability in the list is [None],
    the handler yields the list as it is, without reading a descriptor or
    the file, and so without an error. *)
Theorem available_datasets_settled (self : Handler) (configured : list (pyval * dict)) :
  Forall (λ item, item.1 ≠ PyNone) configured →
  VIIRSJRRFileHandler.available_datasets file_type_matches self (Some configured)
  = (configured, None).
Proof. apply available_loop_settled. Qed.

(** X8: whatever the list is, every pair the handler yields carries a
    descriptor of the list, unchanged, and an availability that is the
    one of the list, [None], [True] or [False]; and it yields at most two
    pairs per descriptor. *)
Theorem available_datasets_yields_descriptors (self : Handler)
    (configured : option (list (pyval * dict))) :
  let out := VIIRSJRRFileHandler.available_datasets file_type_matches self configured in
  Forall (λ item, ∃ is_avail, (is_avail, item.2) ∈ default [] configured ∧
                   (item.1 = is_avail ∨ item.1 = PyNone ∨ ∃ b, item.1 = PyBool b))
         out.1 ∧
  (length out.1 <= 2 * length (default [] configured))%nat.
Proof.
  unfold VIIRSJRRFileHandler.available_datasets. cbv zeta.
  induction (default [] configured) as [|[is_avail ds_info] rest [IHitems IHlen]].
  { split; [constructor | reflexivity]. }
  assert (Hrest : Forall (λ item, ∃ is_avail0,
                    (is_avail0, item.2) ∈ (is_avail, ds_info) :: rest ∧
                    (item.1 = is_avail0 ∨ item.1 = PyNone ∨ ∃ b, item.1 = PyBool b))
                  (VIIRSJRRFileHandler.available_loop file_type_matches self rest).1).
  { eapply Forall_impl; [exact IHitems|]. intros item (a & Hin & Hav).
    exists a. split; [by right | done]. }
  assert (Hhere : ∀ v, v = is_avail ∨ v = PyNone ∨ (∃ b, v = PyBool b) →
            ∃ is_avail0, (is_avail0, ds_info) ∈ (is_avail, ds_info) :: rest ∧
              (v = is_avail0 ∨ v = PyNone ∨ ∃ b, v = PyBool b)).
  { intros v Hv. exists is_avail. split; [by left | done]. }
  simpl. destruct (negb (Py.is_none is_avail)); simpl.
  { split; [constructor; [apply Hhere; by left | exact Hrest] | lia]. }
  destruct (Py.getitem ds_info "file_type") as [file_type|e]; simpl;
    [|split; [constructor | lia]].
  destruct (Py.getitem ds_info "name") as [name|e]; simpl.
  - destruct (VIIRSJRRFileHandler.nc_contains self _) as [present|e]; simpl.
    + destruct (Py.is_none (file_type_matches self file_type)); simpl;
        (split; [repeat (constructor; [apply Hhere; eauto |]); exact Hrest
                | lia]).
    + destruct (Py.is_none (file_type_matches self file_type)); simpl;
        (split; [repeat (constructor; [apply Hhere; eauto |]); constructor | lia]).
  - destruct (Py.is_none (file_type_matches self file_type)); simpl;
      (split; [repeat (constructor; [apply Hhere; eauto |]); constructor | lia]).
Qed.

Lemma available_loop_own (self : Handler) (configured : list (pyval * dict)) :
  Forall (λ item, item.1 = PyNone → own_descriptor file_type_matches self item.2)
         configured →
  VIIRSJRRFileHandler.available_loop file_type_matches self configured
  = ((λ item, (own_answer self item, item.2)) <$> configured, None).
Proof.
  induction 1 as [|[is_avail ds_info] rest Hitem Hrest IH]; [reflexivity|].
  assert (is_avail = PyNone ∨ is_avail ≠ PyNone) as [->|Hsettled]
    by (destruct is_avail; (by left) || (by right)).
  - destruct (Hitem eq_refl) as ((file_type & Hft & Hmatch) & [name Hname] & Hkey).
    simpl in Hft, Hname, Hkey. simpl. unfold Py.getitem. rewrite Hft, Hname.
    fold (VIIRSJRRFileHandler.available_loop file_type_matches self rest).
    rewrite IH. unfold own_answer. simpl.
    assert (Py.get_default ds_info "file_key" name = descriptor_key ds_info) as ->.
    { unfold Py.get_default, descriptor_key. rewrite Hname.
      by destruct (ds_info !! "file_key"). }
    destruct (Py.is_none (file_type_matches self file_type)) eqn:Hnone.
    { by destruct (file_type_matches self file_type). }
    destruct (descriptor_key ds_info) as [| | | | |l] eqn:Hdk; try reflexivity.
    by destruct (Hkey l).
  - rewrite available_loop_known by done. rewrite IH.
    unfold own_answer. simpl. by destruct is_avail.
Qed.

(** X9: on a list in which every unsettled descriptor is one of the
    handler's own file type, [available_datasets] yields exactly one pair
    per pair of the list, in order and with the descriptor unchanged: a
    settled availability as it is, an unsettled one replaced by the
    presence of the key in the file. Its answers are all settled, so that
    handing the result to the handler once more gives the result again. *)
Theorem available_datasets_own (self : Handler) (configured : list (pyval * dict)) :
  Forall (λ item, item.1 = PyNone → own_descriptor file_type_matches self item.2)
         configured →
  let answers := (λ item, (own_answer self item, item.2)) <$> configured in
  VIIRSJRRFileHandler.available_datasets file_type_matches self (Some configured)
  = (answers, None) ∧
  VIIRSJRRFileHandler.available_datasets file_type_matches self (Some answers)
  = (answers, None).
Proof.
  intros Hown. cbv zeta. unfold VIIRSJRRFileHandler.available_datasets. simpl.
  split; [by apply available_loop_own|].
  apply available_loop_settled. apply Forall_fmap, Forall_forall.
  intros [is_avail ds_info] _. unfold own_answer. simpl.
  destruct is_avail; try done. by destruct (descriptor_key ds_info).
Qed.

(** X10: a descriptor without [file_type] ends the iteration with
    [KeyError] before anything is yielded for it. A descriptor without
    [name] ends it with [KeyError] as well, even when it has a
    [file_key], since the default of the lookup is evaluated first; the
    pair for a foreign file type has been yielded by then. In both cases
    the rest of the list is not visited. *)
Theorem available_datasets_missing_keys (self : Handler) (ds_info : dict)
    (rest : list (pyval * dict)) :
  (ds_info !! "file_type" = None →
   VIIRSJRRFileHandler.available_datasets file_type_matches self
     (Some ((PyNone, ds_info) :: rest))
   = ([], Some (KeyError (PyStr "file_type")))) ∧
  (∀ file_type,
     ds_info !! "file_type" = Some file_type → ds_info !! "name" = None →
     VIIRSJRRFileHandler.available_datasets file_type_matches self
       (Some ((PyNone, ds_info) :: rest))
     = (if Py.is_none (file_type_matches self file_type) then [(PyNone, ds_info)] else [],
        Some (KeyError (PyStr "name")))).
Proof.
  unfold VIIRSJRRFileHandler.available_datasets. simpl. split.
  - intros Hft. by rewrite (getitem_missing _ _ Hft).
  - intros file_type Hft Hname.
    rewrite (proj2 (getitem_Ok _ _ _) Hft), (getitem_missing _ _ Hname).
    by destruct (Py.is_none _).
Qed.

End AvailabilityFurther.

Lemma available_datasets_settled_witness :
  let settled := [(PyBool true, Sample.ndvi_info); (PyBool false, ∅)] in
  VIIRSJRRFileHandler.available_datasets Sample.file_type_matches
    Sample.cloud_mask_handler (Some settled) = (settled, None).
Proof.
  intros settled. apply available_datasets_settled.
  repeat constructor; discriminate.
Defined.

Lemma available_datasets_own_witness :
  let configured := [(PyNone, Sample.cloud_mask_info); (PyBool false, Sample.ndvi_info);
                     (PyNone, <["file_key" := PyStr "Longitude"]> Sample.cloud_mask_info)] in
  VIIRSJRRFileHandler.available_datasets Sample.file_type_matches
    Sample.cloud_mask_handler (Some configured)
  = ([(PyBool true, Sample.cloud_mask_info); (PyBool false, Sample.ndvi_info);
      (PyBool false, <["file_key" := PyStr "Longitude"]> Sample.cloud_mask_info)], None).
Proof.
  intros configured.
  assert (Hown : Forall (λ item, item.1 = PyNone →
                   own_descriptor Sample.file_type_matches Sample.cloud_mask_handler item.2)
                 configured).
  { apply Forall_cons. split.
    { intros _. split_and!; [eexists; split; [reflexivity | discriminate]
                            | by eexists | intros l; discriminate]. }
    apply Forall_cons. split; [discriminate|].
    apply Forall_cons. split; [|constructor].
    intros _. split_and!; [eexists; split; [reflexivity | discriminate]
                          | by eexists | intros l; discriminate]. }
  exact (proj1 (available_datasets_own Sample.file_type_matches
                  Sample.cloud_mask_handler configured Hown)).
Defined.

Lemma available_datasets_missing_keys_witness :
  let nameless : dict :=
    {[ "file_key" := PyStr "CloudMask"; "file_type" := PyStr "jrr_cloudmask" ]} in
  VIIRSJRRFileHandler.available_datasets Sample.file_type_matches
    Sample.cloud_mask_handler (Some [(PyNone, nameless); (PyNone, Sample.cloud_mask_info)])
  = ([], Some (KeyError (PyStr "name"))).
Proof.
  intros nameless.
  destruct (available_datasets_missing_keys Sample.file_type_matches
              Sample.cloud_mask_handler nameless [(PyNone, Sample.cloud_mask_info)])
    as [_ Hname].
  exact (Hname (PyStr "jrr_cloudmask") eq_refl eq_refl).
Defined.

(** ** Construction *)

Lemma assoc_get_set {V} (key key' : string) (v : V) (d : list (string * V)) :
  Xr.assoc_get key (Xr.assoc_set key' v d)
  = if String.eqb key' key then Some v else Xr.assoc_get key d.
Proof.
  induction d as [|[k w] d IH]; simpl; [reflexivity|].
  destruct (String.eqb_spec k key') as [->|Hk]; simpl.
  - by destruct (String.eqb key' key).
  - rewrite IH. destruct (String.eqb_spec k key) as [->|Hk']; [|reflexivity].
    by rewrite (proj2 (String.eqb_neq _ _)) by congruence.
Qed.

Lemma assoc_mem_keys {V} (key : string) (d : list (string * V)) :
  Xr.assoc_mem key d = true ↔ key ∈ d.*1.
Proof.
  unfold Xr.assoc_mem. rewrite bool_decide_eq_true.
  induction d as [|[k w] d IH]; simpl.
  - rewrite elem_of_nil. split; [by intros [? ?] | done].
  - rewrite elem_of_cons. destruct (String.eqb_spec k key) as [->|Hk].
    + split; [by left | by eexists].
    + rewrite IH. split; [by right | intros [?|?]; [congruence | done]].
Qed.

Lemma getitem_update_attr (ds : Xr.Dataset) (name key : string) (v : pyval) (n : string) :
  Xr.getitem (Xr.update_attr ds name key v) n
  = (λ a, if decide (n = name) then Xr.set_attr a key v else a) <$> Xr.getitem ds n.
Proof.
  unfold Xr.update_attr, Xr.getitem.
  destruct (Xr.assoc_get name (Xr.ds_vars ds)) as [a|] eqn:Hname; simpl.
  - rewrite assoc_get_set. destruct (String.eqb_spec name n) as [<-|Hn].
    + rewrite Hname. simpl. by rewrite decide_True.
    + destruct (Xr.assoc_get n (Xr.ds_vars ds)); simpl; [|done].
      by rewrite decide_False by congruence.
  - destruct (Xr.assoc_get n (Xr.ds_vars ds)) eqn:Hn; simpl; [|done].
    rewrite decide_False; [done|]. intros ->. congruence.
Qed.

Lemma getitem_name_geolocation (ds : Xr.Dataset) (n : string) :
  Xr.getitem (VIIRSJRRFileHandler.name_geolocation ds) n
  = geolocated n <$> Xr.getitem ds n.
Proof.
  unfold VIIRSJRRFileHandler.name_geolocation, geolocated.
  assert (∀ ds' name v,
    Xr.getitem (if Xr.has_var ds' name
                then Xr.update_attr ds' name "standard_name" v else ds') n
    = (λ a, if decide (n = name) then Xr.set_attr a "standard_name" v else a)
      <$> Xr.getitem ds' n) as Hstep.
  { intros ds' name v. destruct (Xr.has_var ds' name) eqn:Hhas.
    - apply getitem_update_attr.
    - unfold Xr.getitem. destruct (Xr.assoc_get n (Xr.ds_vars ds')) eqn:Hn; simpl; [|done].
      rewrite decide_False; [done|]. intros ->.
      unfold Xr.has_var, Xr.assoc_mem in Hhas. rewrite Hn in Hhas.
      apply bool_decide_eq_false in Hhas. destruct Hhas. by eexists. }
  rewrite Hstep, Hstep. destruct (Xr.getitem ds n) as [a|e]; simpl; [|done].
  destruct (decide (n = "Latitude")) as [->|?]; [reflexivity|].
  by destruct (decide (n = "Longitude")).
Qed.

Lemma init_Ok (class : handler_class) (fname : string) (fi fti : dict)
    (opened : Xr.Dataset) (h : Handler) :
  VIIRSJRRFileHandler.__init__ class fname fi fti opened = Ok h →
  ∃ ds version,
    VIIRSJRRFileHandler.rename_spatial_dims opened = Ok ds ∧
    fi !! "platform_shortname" = Some version ∧
    h = {| cls := class; filename := fname; filename_info := fi; filetype_info := fti;
           nc := VIIRSJRRFileHandler.name_geolocation ds;
           algorithm_version := version; sensor_name := "viirs" |}.
Proof.
  unfold VIIRSJRRFileHandler.__init__. intros H.
  invert_bind H. cbv zeta in H. invert_bind H. injection H as <-.
  apply getitem_Ok in Ha0. by eexists _, _.
Qed.

(** X11: in a handler that has been constructed, [Latitude] and
    [Longitude], when the file has them, carry the standard names
    latitude and longitude whatever the file said; their other attributes
    and their data, and every other variable, are those of the file after
    the renaming of the dimensions, and no variable is added or lost. *)
Theorem init_names_geolocation (class : handler_class) (fname : string)
    (fi fti : dict) (opened : Xr.Dataset) (h : Handler) :
  VIIRSJRRFileHandler.__init__ class fname fi fti opened = Ok h →
  ∃ ds,
    VIIRSJRRFileHandler.rename_spatial_dims opened = Ok ds ∧
    (∀ name, Xr.getitem (nc h) name = geolocated name <$> Xr.getitem ds name) ∧
    (∀ a, Xr.getitem (nc h) "Latitude" = Ok a →
          Xr.attrs a !! "standard_name" = Some (PyStr "latitude")) ∧
    (∀ a, Xr.getitem (nc h) "Longitude" = Ok a →
          Xr.attrs a !! "standard_name" = Some (PyStr "longitude")).
Proof.
  intros Hinit. apply init_Ok in Hinit as (ds & version & Hds & _ & ->).
  exists ds. simpl. split_and!; [done | apply getitem_name_geolocation | |].
  - intros a. rewrite getitem_name_geolocation.
    destruct (Xr.getitem ds "Latitude"); [|done]. intros [= <-]. apply lookup_insert_eq.
  - intros a. rewrite getitem_name_geolocation.
    destruct (Xr.getitem ds "Longitude"); [|done]. intros [= <-]. apply lookup_insert_eq.
Qed.

Lemma init_names_geolocation_witness :
  ∃ a, Xr.getitem (nc Sample.cloud_mask_handler) "Latitude" = Ok a ∧
       Xr.attrs a !! "standard_name" = Some (PyStr "latitude") ∧
       Xr.attrs a !! "units" = Some (PyStr "degrees_north").
Proof.
  destruct (init_names_geolocation VIIRSJRRFileHandler_class "JRR-CloudMask_v2r3_j01.nc"
              Sample.filename_info_j01 Sample.cloud_mask_filetype Sample.cloud_mask_file
              Sample.cloud_mask_handler eq_refl) as (ds & _ & _ & Hlat & _).
  eexists. split; [reflexivity|]. split; [by apply Hlat | reflexivity].
Defined.

(** X12: of the filename information construction reads the platform
    code only. Without [platform_shortname] it raises [KeyError]; with
    it, whatever its value, the handler is built with the sensor name
    "viirs", and the start and end times are looked up when they are
    read, a missing one raising [KeyError] then. An error of the renaming
    comes first. *)
Theorem init_filename_info (class : handler_class) (fname : string)
    (fi fti : dict) (opened : Xr.Dataset) :
  (∀ e, VIIRSJRRFileHandler.rename_spatial_dims opened = Raise e →
        VIIRSJRRFileHandler.__init__ class fname fi fti opened = Raise e) ∧
  (∀ ds, VIIRSJRRFileHandler.rename_spatial_dims opened = Ok ds →
     (fi !! "platform_shortname" = None →
      VIIRSJRRFileHandler.__init__ class fname fi fti opened
      = Raise (KeyError (PyStr "platform_shortname"))) ∧
     (∀ version, fi !! "platform_shortname" = Some version →
        ∃ h, VIIRSJRRFileHandler.__init__ class fname fi fti opened = Ok h ∧
             algorithm_version h = version ∧ sensor_name h = "viirs" ∧
             VIIRSJRRFileHandler.start_time h = Py.getitem fi "start_time" ∧
             VIIRSJRRFileHandler.end_time h = Py.getitem fi "end_time")).
Proof.
  unfold VIIRSJRRFileHandler.__init__. split.
  - by intros e ->.
  - intros ds ->. simpl. split.
    + intros Hcode. by rewrite (getitem_missing _ _ Hcode).
    + intros version Hcode. rewrite (proj2 (getitem_Ok _ _ _) Hcode). simpl.
      by eexists.
Qed.

Lemma init_filename_info_witness :
  VIIRSJRRFileHandler_new "JRR-CloudMask_v2r3_j01.nc"
    {[ "start_time" := PyStr "2021-12-25T08:07:27" ]}
    Sample.cloud_mask_filetype Sample.cloud_mask_file
  = Raise (KeyError (PyStr "platform_shortname")) ∧
  ∃ h, VIIRSJRRFileHandler_new "JRR-CloudMask_v2r3_j01.nc"
         {[ "platform_shortname" := PyStr "npp" ]}
         Sample.cloud_mask_filetype Sample.cloud_mask_file = Ok h ∧
       VIIRSJRRFileHandler.start_time h = Raise (KeyError (PyStr "start_time")).
Proof.
  split.
  - destruct (init_filename_info VIIRSJRRFileHandler_class "JRR-CloudMask_v2r3_j01.nc"
                {[ "start_time" := PyStr "2021-12-25T08:07:27" ]}
                Sample.cloud_mask_filetype Sample.cloud_mask_file) as [_ Hinit].
    destruct (Hinit Sample.cloud_mask_file eq_refl) as [Hmissing _].
    apply Hmissing. reflexivity.
  - destruct (init_filename_info VIIRSJRRFileHandler_class "JRR-CloudMask_v2r3_j01.nc"
                {[ "platform_shortname" := PyStr "npp" ]}
                Sample.cloud_mask_filetype Sample.cloud_mask_file) as [_ Hinit].
    destruct (Hinit Sample.cloud_mask_file eq_refl) as [_ Hbuilt].
    destruct (Hbuilt (PyStr "npp") eq_refl) as (h & Hh & _ & _ & Hstart & _).
    exists h. split; [exact Hh|]. rewrite Hstart. reflexivity.
Defined.

Lemma rename_raises (ds : Xr.Dataset) (name_dict : list (string * string)) (e : exn) :
  Xr.rename ds name_dict = Raise e → e = ValueError.
Proof.
  unfold Xr.rename. destruct (forallb _ _); [|by intros [= <-]].
  assert (∀ vars acc, Xr.rename_vars name_dict vars acc = Raise e → e = ValueError) as Hvars.
  { induction vars as [|[k a] vars IH]; intros acc; simpl; [done|].
    destruct (Xr.assoc_mem _ acc); [by intros [= <-] | apply IH]. }
  destruct (Xr.rename_vars name_dict (Xr.ds_vars ds) []) eqn:Hren; simpl; [done|].
  intros [= <-]. by eapply Hvars.
Qed.

Lemma rename_keeps_missing (ds ds' : Xr.Dataset) (a x b y name : string) :
  Xr.rename ds [(a, x); (b, y)] = Ok ds' →
  name ≠ x → name ≠ y →
  Xr.has_dim ds name = false → Xr.has_var ds name = false →
  Xr.has_dim ds' name = false ∧ Xr.has_var ds' name = false.
Proof.
  intros Hren Hx Hy Hdim Hvar. apply rename_Ok in Hren as [Hdims Hvars].
  assert (∀ d, name = Xr.new_name [(a, x); (b, y)] d → name = d) as Hnew.
  { intros d. rewrite new_name_two. repeat case_decide; congruence. }
  unfold Xr.has_dim, Xr.has_var in *.
  apply not_true_iff_false in Hdim, Hvar.
  rewrite assoc_mem_keys in Hdim. rewrite assoc_mem_keys in Hvar.
  split; apply not_true_iff_false;
    rewrite assoc_mem_keys.
  - rewrite Hdims, rename_dims_keys. intros (d & Hd & Heq).
    apply Hnew in Heq as <-. done.
  - rewrite Hvars, <- list_fmap_compose. intros Hin.
    apply list_elem_of_fmap in Hin as ([k v] & Heq & Hkv). simpl in Heq.
    apply Hnew in Heq as <-. apply Hvar. apply list_elem_of_fmap. by exists (name, v).
Qed.

(** X13: a file that has the 375 m dimensions but lacks one of the
    750 m dimensions, as dimension and as variable, cannot be opened: the
    second renaming names a dimension that is not there, and construction
    raises [ValueError]. *)
Theorem single_grid_file_rejected (class : handler_class) (fname : string)
    (fi fti : dict) (opened : Xr.Dataset) (missing : string) :
  Xr.has_dim opened "columns" = false →
  Xr.has_dim opened "Along_Track_375m" = true →
  missing = "Along_Scan_750m" ∨ missing = "Along_Track_750m" →
  Xr.has_dim opened missing = false → Xr.has_var opened missing = false →
  VIIRSJRRFileHandler.__init__ class fname fi fti opened = Raise ValueError.
Proof.
  intros Hlower Hfine Hmissing Hdim Hvar.
  unfold VIIRSJRRFileHandler.__init__, VIIRSJRRFileHandler.rename_spatial_dims.
  rewrite Hlower, Hfine.
  destruct (Xr.rename opened _) as [ds1|e] eqn:Hfirst.
  2: { apply rename_raises in Hfirst as ->. reflexivity. }
  destruct (rename_keeps_missing _ _ _ _ _ _ missing Hfirst) as [Hdim1 Hvar1];
    [by destruct Hmissing as [-> | ->] | by destruct Hmissing as [-> | ->] | done | done |].
  rewrite bind_Ok_l. unfold Xr.rename.
  replace (forallb _ _) with false; [reflexivity|].
  symmetry. apply not_true_iff_false. rewrite forallb_forall. intros Hall.
  specialize (Hall (missing, if decide (missing = "Along_Scan_750m") then "x" else "y")).
  simpl in Hall. rewrite Hdim1, Hvar1 in Hall. simpl in Hall.
  assert (false = true) as Habs; [|discriminate].
  apply Hall. destruct Hmissing as [-> | ->]; simpl; tauto.
Qed.

Lemma single_grid_file_rejected_witness :
  VIIRSSurfaceReflectanceWithVIHandler_new "SurfRefl_v1r1_j01.nc"
    Sample.filename_info_j01 Sample.surf_refl_filetype fine_grid_file = Raise ValueError.
Proof.
  apply (single_grid_file_rejected _ _ _ _ fine_grid_file "Along_Scan_750m");
    first [reflexivity | by left].
Defined.

Lemma dual_convention_renamed_witness :
  (λ kv, Xr.dims kv.2) <$> Xr.ds_vars (nc Sample.surf_refl_handler)
  = [["y"; "x"]; ["y"; "x"]; ["y"; "x"]; ["y"; "x"]].
Proof.
  destruct (dual_convention_renamed Sample.surf_refl_file (nc Sample.surf_refl_handler))
    as [Hvars _]; [reflexivity | reflexivity | reflexivity |].
  rewrite Hvars. reflexivity.
Defined.

Lemma rename_spatial_dims_lower_case_witness :
  VIIRSJRRFileHandler.rename_spatial_dims lower_case_file = Raise ValueError.
Proof. apply rename_spatial_dims_lower_case; reflexivity. Defined.

(** ** get_dataset, continued *)

Lemma rows_per_scans_shape (a b : Xr.DataArray) :
  Xr.shape a = Xr.shape b →
  VIIRSJRRFileHandler.rows_per_scans a = VIIRSJRRFileHandler.rows_per_scans b.
Proof. unfold VIIRSJRRFileHandler.rows_per_scans. by intros ->. Qed.


(** [get_dataset] once the variable is found and masked: the platform
    name and the rows per scan are what is left to fail. *)
Lemma get_dataset_masked (self : Handler) (info : dict) (name : string)
    (src masked : Xr.DataArray) :
  info !! "file_key" = Some (PyStr name) →
  Xr.getitem (nc self) name = Ok src →
  self_mask_invalid self src info = Ok masked →
  get_dataset self info
  = (pname ← VIIRSJRRFileHandler.platform_name self;
     rps ← VIIRSJRRFileHandler.rows_per_scans src;
     Ok (finished self info masked pname rps)).
Proof.
  intros Hkey Hsrc Hmask. unfold get_dataset.
  rewrite (proj2 (getitem_Ok _ _ _) Hkey). rewrite bind_Ok_l. simpl.
  rewrite Hsrc, bind_Ok_l, Hmask, bind_Ok_l.
  destruct (VIIRSJRRFileHandler.platform_name self) as [pname|e]; [|reflexivity].
  rewrite !bind_Ok_l.
  apply self_mask_invalid_labels in Hmask as (_ & _ & _ & Hshape).
  match goal with
  | |- VIIRSJRRFileHandler.rows_per_scans ?a ≫= _ = _ =>
      rewrite (rows_per_scans_shape a src)
  end.
  - by destruct (VIIRSJRRFileHandler.rows_per_scans src).
  - rewrite <- Hshape. unfold Xr.shape. simpl.
    rewrite decode_flag_meanings_data.
    destruct (info !! "standard_name"); simpl; by destruct (_ && _).
Qed.

(** X16: the array [get_dataset] returns is stamped with the platform
    name of the handler, with its sensor name, and with the rows per scan
    of the variable read: 32 when its second dimension has length 6400, 16
    otherwise. *)
Theorem get_dataset_stamps (self : Handler) (info : dict) (out : Xr.DataArray) :
  get_dataset self info = Ok out →
  ∃ key src pname n,
    info !! "file_key" = Some key ∧ nc_getitem self key = Ok src ∧
    VIIRSJRRFileHandler.platform_name self = Ok pname ∧
    Xr.shape src !! 1%nat = Some n ∧
    Xr.attrs out !! "platform_name" = Some (PyStr pname) ∧
    Xr.attrs out !! "sensor" = Some (PyStr (sensor_name self)) ∧
    Xr.attrs out !! "rows_per_scan"
    = Some (PyInt (if decide (Z.of_nat n = 6400%Z) then 32 else 16)).
Proof.
  intros Hout. pose proof Hout as Hinv.
  apply get_dataset_inv in Hinv
    as (key & src & masked & pname & rps & Hkey & Hsrc & Hmask & _ & Hpname & Heq).
  destruct key as [| | | |name|]; try done. simpl in Hsrc.
  rewrite (get_dataset_masked self info name src masked Hkey Hsrc Hmask) in Hout.
  rewrite Hpname, bind_Ok_l in Hout.
  destruct (VIIRSJRRFileHandler.rows_per_scans src) as [rps'|e] eqn:Hrows; [|done].
  rewrite bind_Ok_l in Hout. injection Hout as <-.
  unfold VIIRSJRRFileHandler.rows_per_scans in Hrows.
  destruct (Xr.shape src !! 1%nat) as [n|] eqn:Hn; [|done]. injection Hrows as <-.
  exists (PyStr name), src, pname, n. split_and!; try done.
  - unfold finished. simpl. rewrite !lookup_insert_ne by done. apply lookup_insert_eq.
  - unfold finished. simpl. rewrite lookup_insert_ne by done. apply lookup_insert_eq.
  - unfold finished. simpl. rewrite lookup_insert_eq.
    destruct (Z.eqb_spec (Z.of_nat n) 6400).
    + by rewrite decide_True.
    + by rewrite decide_False.
Qed.

Lemma get_dataset_stamps_witness :
  ∃ out, get_dataset Sample.cloud_mask_handler Sample.cloud_mask_info = Ok out ∧
         Xr.attrs out !! "platform_name" = Some (PyStr "NOAA-20") ∧
         Xr.attrs out !! "sensor" = Some (PyStr "viirs") ∧
         Xr.attrs out !! "rows_per_scan" = Some (PyInt 16).
Proof.
  destruct (get_dataset Sample.cloud_mask_handler Sample.cloud_mask_info)
    as [out|e] eqn:Hout; [|vm_compute in Hout; discriminate].
  exists out. split; [reflexivity|].
  destruct (get_dataset_stamps _ _ out Hout)
    as (key & src & pname & n & Hkey & Hsrc & Hpname & Hn & Hp & Hs & Hr).
  vm_compute in Hkey. injection Hkey as <-.
  vm_compute in Hsrc. injection Hsrc as <-.
  vm_compute in Hpname. injection Hpname as <-.
  vm_compute in Hn. injection Hn as <-.
  split_and!; [exact Hp | exact Hs | exact Hr].
Defined.





Lemma self_mask_invalid_trusted (self : Handler) (info : dict) (name : string)
    (src : Xr.DataArray) :
  cls self = VIIRSJRRFileHandler_class ∨ (name ≠ "NDVI" ∧ name ≠ "EVI") →
  info !! "file_key" = Some (PyStr name) →
  declares_fill src = true →
  self_mask_invalid self src info = Ok src.
Proof.
  intros Hclass Hkey Hfill.
  assert (Hbase : VIIRSJRRFileHandler._mask_invalid src info = Ok src).
  { unfold VIIRSJRRFileHandler._mask_invalid. by rewrite (declares_fill_trusted _ Hfill). }
  unfold self_mask_invalid. destruct (cls self) eqn:Hcls; [done|].
  destruct Hclass as [?|[Hndvi Hevi]]; [done|].
  unfold VIIRSSurfaceReflectanceWithVIHandler._mask_invalid.
  rewrite Hbase, bind_Ok_l, (proj2 (getitem_Ok _ _ _) Hkey), bind_Ok_l.
  replace (Py.in_strs (PyStr name) ["NDVI"; "EVI"]) with false; [done|].
  simpl. rewrite (proj2 (String.eqb_neq _ _) Hndvi), (proj2 (String.eqb_neq _ _) Hevi).
  reflexivity.
Qed.

(** X19: a variable that xarray has decoded (its encoding declares a
    fill value), that has at least two dimensions, read by a handler with
    a known platform, is returned; the vegetation indexes of the surface
    reflectance handler apart, which are masked further. Its values are
    those of the file, times 100 when a fraction is asked for in
    percent. *)
Theorem get_dataset_decoded_variable (self : Handler) (info : dict) (name : string)
    (src : Xr.DataArray) (pname : string) (n : nat) :
  cls self = VIIRSJRRFileHandler_class ∨ (name ≠ "NDVI" ∧ name ≠ "EVI") →
  info !! "file_key" = Some (PyStr name) →
  Xr.getitem (nc self) name = Ok src →
  declares_fill src = true →
  VIIRSJRRFileHandler.platform_name self = Ok pname →
  Xr.shape src !! 1%nat = Some n →
  ∃ out, get_dataset self info = Ok out ∧
         (¬ fraction_to_percent src info → Xr.data out = Xr.data src) ∧
         (fraction_to_percent src info →
          Xr.as_floats (Xr.data out)
          = List.map (fun y => (y * 100)%float) (Xr.as_floats (Xr.data src))).
Proof.
  intros Hclass Hkey Hsrc Hfill Hpname Hn.
  pose proof (self_mask_invalid_trusted self info name src Hclass Hkey Hfill) as Hmask.
  rewrite (get_dataset_masked self info name src src Hkey Hsrc Hmask).
  rewrite Hpname, bind_Ok_l. unfold VIIRSJRRFileHandler.rows_per_scans. rewrite Hn.
  rewrite bind_Ok_l. eexists. split; [reflexivity|].
  rewrite finished_data. split.
  - intros Hplain. destruct (_ && _) eqn:Htest; [|reflexivity].
    apply (scaling_test src src info eq_refl) in Htest. contradiction.
  - intros Hpercent. rewrite (proj2 (scaling_test src src info eq_refl) Hpercent).
    apply imul_floats.
Qed.

Lemma get_dataset_decoded_variable_witness :
  ∃ out, get_dataset Sample.cloud_mask_handler
           {[ "file_key" := PyStr "Latitude"; "_FillValue" := PyInt 10 ]} = Ok out ∧
         Xr.data out = Xr.data Sample.latitude_var.
Proof.
  destruct (get_dataset_decoded_variable Sample.cloud_mask_handler
              {[ "file_key" := PyStr "Latitude"; "_FillValue" := PyInt 10 ]} "Latitude"
              (Xr.set_attr Sample.latitude_var "standard_name" (PyStr "latitude"))
              "NOAA-20" 3%nat)
    as (out & Hout & Hplain & _); try reflexivity; [by left|].
  exists out. split; [exact Hout|]. rewrite Hplain; [reflexivity|].
  intros [Hpercent _]. vm_compute in Hpercent. discriminate.
Defined.

(** ** Masking, continued *)







(** ** The surface reflectance handler, continued *)

(** X22: for a descriptor whose key is neither NDVI nor EVI the surface
    reflectance handler masks as the base handler does, result or error,
    and does not read the quality flags. *)
Theorem surface_mask_other_variables (self : Handler) (data_arr : Xr.DataArray)
    (ds_info : dict) (key : pyval) :
  ds_info !! "file_key" = Some key →
  key ≠ PyStr "NDVI" → key ≠ PyStr "EVI" →
  VIIRSSurfaceReflectanceWithVIHandler._mask_invalid self data_arr ds_info
  = VIIRSJRRFileHandler._mask_invalid data_arr ds_info.
Proof.
  intros Hkey Hndvi Hevi. unfold VIIRSSurfaceReflectanceWithVIHandler._mask_invalid.
  destruct (VIIRSJRRFileHandler._mask_invalid data_arr ds_info) as [base|e]; [|reflexivity].
  rewrite bind_Ok_l, (proj2 (getitem_Ok _ _ _) Hkey), bind_Ok_l.
  replace (Py.in_strs key ["NDVI"; "EVI"]) with false; [reflexivity|].
  symmetry. apply not_true_iff_false. unfold Py.in_strs. simpl.
  rewrite orb_false_r, orb_true_iff, !eq_str_true. tauto.
Qed.

Lemma surface_mask_other_variables_witness :
  let info : dict := {[ "file_key" := PyStr "QF1 Surface Reflectance";
                        "_FillValue" := PyInt 192 ]} in
  VIIRSSurfaceReflectanceWithVIHandler._mask_invalid Sample.surf_refl_handler
    (Sample.qf_var [192; 2]%Z) info
  = VIIRSJRRFileHandler._mask_invalid (Sample.qf_var [192; 2]%Z) info.
Proof.
  intros info.
  apply (surface_mask_other_variables _ _ info (PyStr "QF1 Surface Reflectance"));
    [reflexivity | discriminate | discriminate].
Defined.

(** X23: for NDVI and EVI the quality flags have to be there: once the
    base masking has gone through, a file without the first quality flag
    variable raises [KeyError] with its name, and a first quality flag
    variable that holds floats raises [TypeError]. *)
Theorem vegetation_index_needs_flags (self : Handler) (data_arr base : Xr.DataArray)
    (ds_info : dict) (key : string) :
  ds_info !! "file_key" = Some (PyStr key) → key = "NDVI" ∨ key = "EVI" →
  VIIRSJRRFileHandler._mask_invalid data_arr ds_info = Ok base →
  (Xr.has_var (nc self) "QF1 Surface Reflectance" = false →
   VIIRSSurfaceReflectanceWithVIHandler._mask_invalid self data_arr ds_info
   = Raise (KeyError (PyStr "QF1 Surface Reflectance"))) ∧
  (∀ qf1 floats,
     Xr.getitem (nc self) "QF1 Surface Reflectance" = Ok qf1 →
     Xr.data qf1 = Xr.Float64 floats →
     VIIRSSurfaceReflectanceWithVIHandler._mask_invalid self data_arr ds_info
     = Raise TypeError).
Proof.
  intros Hkey Hveg Hbase.
  assert (VIIRSSurfaceReflectanceWithVIHandler._mask_invalid self data_arr ds_info
          = (good ← VIIRSSurfaceReflectanceWithVIHandler._get_veg_index_good_mask self;
             Xr.where_ base good)) as ->.
  { unfold VIIRSSurfaceReflectanceWithVIHandler._mask_invalid.
    rewrite Hbase, bind_Ok_l, (proj2 (getitem_Ok _ _ _) Hkey), bind_Ok_l.
    by replace (Py.in_strs (PyStr key) ["NDVI"; "EVI"]) with true
      by (by destruct Hveg as [-> | ->]). }
  unfold VIIRSSurfaceReflectanceWithVIHandler._get_veg_index_good_mask. split.
  - intros Hvar. unfold Xr.has_var, Xr.assoc_mem in Hvar.
    apply bool_decide_eq_false in Hvar. unfold Xr.getitem.
    destruct (Xr.assoc_get _ _); [|reflexivity]. destruct Hvar. by eexists.
  - intros qf1 floats -> Hdata. rewrite bind_Ok_l. unfold Xr.bitand.
    by rewrite Hdata.
Qed.

Lemma vegetation_index_needs_flags_witness :
  VIIRSSurfaceReflectanceWithVIHandler._mask_invalid Sample.cloud_mask_handler
    Sample.ndvi_var Sample.ndvi_info
  = Raise (KeyError (PyStr "QF1 Surface Reflectance")).
Proof.
  assert (Hkey : Sample.ndvi_info !! "file_key" = Some (PyStr "NDVI")) by reflexivity.
  assert (Hbase : VIIRSJRRFileHandler._mask_invalid Sample.ndvi_var Sample.ndvi_info
                  = Ok Sample.ndvi_var) by reflexivity.
  destruct (vegetation_index_needs_flags Sample.cloud_mask_handler _ _ _ "NDVI"
              Hkey (or_introl eq_refl) Hbase) as [Hmissing _].
  apply Hmissing. reflexivity.
Defined.


(** X24: where the quality test passes, NDVI and EVI are as the base
    masking left them: at a fine pixel whose coarse cell meets none of
    the eight conditions the masked array has the value of the base
    masking. *)
Theorem vegetation_index_acceptable_kept (self : Handler)
    (data_arr masked : Xr.DataArray) (ds_info : dict) (key : string) :
  dataset_well_formed (nc self) →
  ds_info !! "file_key" = Some (PyStr key) → key = "NDVI" ∨ key = "EVI" →
  VIIRSSurfaceReflectanceWithVIHandler._mask_invalid self data_arr ds_info = Ok masked →
  ∃ base qf1 qf2 qf7,
    VIIRSJRRFileHandler._mask_invalid data_arr ds_info = Ok base ∧
    Xr.getitem (nc self) "QF1 Surface Reflectance" = Ok qf1 ∧
    Xr.getitem (nc self) "QF2 Surface Reflectance" = Ok qf2 ∧
    Xr.getitem (nc self) "QF7 Surface Reflectance" = Ok qf7 ∧
    ∀ i j q1 q2 q7,
      flag qf1 (i / 2) (j / 2) = Some q1 →
      flag qf2 (i / 2) (j / 2) = Some q2 →
      flag qf7 (i / 2) (j / 2) = Some q7 →
      ¬ unacceptable q1 q2 q7 →
      pixel masked i j = pixel base i j.
Proof.
  intros Hwf Hkey Hveg Hmask.
  apply (surface_mask_invalid_inv _ _ _ _ key Hkey Hveg) in Hmask
    as (base & good & Hbase & Hgood & Hwhere).
  pose proof Hgood as Hinv. apply good_mask_inv in Hinv
    as (qf1 & qf2 & qf7 & _ & _ & _ & _ & _ & Hqf1 & _ & Hqf2 & _ & Hqf7 & _).
  exists base, qf1, qf2, qf7. split_and!; try done.
  intros i j q1 q2 q7 Hq1 Hq2 Hq7 Hgoodpix.
  pose proof (good_mask_at self good qf1 qf2 qf7 i j q1 q2 q7
                Hwf Hgood Hqf1 Hqf2 Hqf7 Hq1 Hq2 Hq7) as Hat.
  rewrite <- bad_pixel_unacceptable in Hgoodpix.
  apply not_true_is_false in Hgoodpix. rewrite Hgoodpix in Hat. simpl in Hat.
  apply at2_Some in Hat as (R & C & Hshape & Hi & Hj & Hkeep).
  apply where_Ok in Hwhere as [Hsh ->].
  unfold pixel, Xr.shape, Xr.where_values. cbn [Xr.data Xr.set_data Xr.values_shape Np.shape].
  rewrite as_floats_Float64. unfold Xr.shape in Hsh. rewrite Hsh, Hshape.
  unfold Np.at2. cbn [Np.shape Np.flat].
  rewrite (proj2 (Nat.ltb_lt _ _) Hi), (proj2 (Nat.ltb_lt _ _) Hj). cbn [andb].
  rewrite zip_with_lookup, Hkeep.
  by destruct (Xr.as_floats (Xr.data base) !! (i * C + j)%nat).
Qed.

Lemma vegetation_index_acceptable_kept_witness :
  ∃ masked,
    VIIRSSurfaceReflectanceWithVIHandler._mask_invalid Sample.surf_refl_handler
      (Xr.set_dims Sample.ndvi_var ["y"; "x"]) Sample.ndvi_info = Ok masked ∧
    pixel masked 0 3 = Some 0.125%float.
Proof.
  destruct (VIIRSSurfaceReflectanceWithVIHandler._mask_invalid Sample.surf_refl_handler
              (Xr.set_dims Sample.ndvi_var ["y"; "x"]) Sample.ndvi_info)
    as [masked|e] eqn:Hmask; [|vm_compute in Hmask; discriminate].
  exists masked. split; [reflexivity|].
  assert (Hwf : dataset_well_formed (nc Sample.surf_refl_handler))
    by (repeat constructor).
  assert (Hkey : Sample.ndvi_info !! "file_key" = Some (PyStr "NDVI")) by reflexivity.
  destruct (vegetation_index_acceptable_kept Sample.surf_refl_handler _ masked
              Sample.ndvi_info "NDVI" Hwf Hkey (or_introl eq_refl) Hmask)
    as (base & qf1 & qf2 & qf7 & Hbase & Hqf1 & Hqf2 & Hqf7 & Hkept).
  vm_compute in Hbase. injection Hbase as <-.
  vm_compute in Hqf1. injection Hqf1 as <-.
  vm_compute in Hqf2. injection Hqf2 as <-.
  vm_compute in Hqf7. injection Hqf7 as <-.
  rewrite (Hkept 0%nat 3%nat 2%Z 3%Z 0%Z eq_refl eq_refl eq_refl); [reflexivity|].
  rewrite <- bad_pixel_unacceptable. discriminate.
Defined.


